(** * authn-server: account store (data/postgres) and configuration loader (config)

    A shallow embedding of [data/postgres/account_store.go] and of the
    [config] package, with the properties of the account lifecycle
    and of configuration loading stated over it.

    Layout: the Go packages are embedded as modules of the same name
    ([models], [postgres], [strings], [sha256], [hmac], [pbkdf2], [url],
    [config]); the theorems follow the definitions. *)

From Stdlib Require Import String Ascii ZArith Bool List Permutation Lia.
Import ListNotations.
Local Open Scope string_scope.
Local Open Scope list_scope.
Local Open Scope Z_scope.

(** Go's [(T, error)] results: a value, or the error that replaces it. *)
Inductive Result (E A : Type) : Type :=
| Ok (a : A)
| Err (e : E).
Arguments Ok {E A} a.
Arguments Err {E A} e.

(** Go byte slices: every element is meant to be in [0, 256). *)
Definition bytes := list Z.

(** [[]byte(s)] *)
Definition bytes_of_string (s : string) : bytes :=
  List.map (fun c => Z.of_N (N_of_ascii c)) (list_ascii_of_string s).

(** ** package models *)

Module models.

(** [time.Time] values, as an instant on the clock. *)
Definition Time := Z.

(** Modelled from the spec: the [models] package is not part of the sources
    at hand; the fields are those of the Account data model, under the names
    [account_store.go] uses for them ([account.Username], [account.DeletedAt],
    the INSERT's column list). A nil [*time.Time] is [None]. *)
Record Account : Type := mkAccount {
  ID : Z;
  Username : string;
  Password : bytes;
  Locked : bool;
  RequireNewPassword : bool;
  PasswordChangedAt : Time;
  CreatedAt : Time;
  UpdatedAt : Time;
  DeletedAt : option Time
}.

(** Modelled from the spec: the OauthAccount data model, under the column
    names of the INSERT in [AddOauthAccount]. *)
Record OauthAccount : Type := mkOauthAccount {
  AccountID : Z;
  Provider : string;
  ProviderID : string;
  AccessToken : string;
  OauthCreatedAt : Time;
  OauthUpdatedAt : Time
}.

End models.

(** ** package postgres *)

Module postgres.
Import models.

(** What the database driver can hand back as [err]. [ErrNoRows] is
    [sql.ErrNoRows]; the other two are the kinds a failed statement has. *)
Inductive Error : Type :=
| ErrNoRows
| StorageUnavailable
| ConstraintViolation.

(** The database behind [*sqlx.DB]: the two tables, rows in insertion order,
    and the sequence that feeds [accounts.id]. *)
Record DB : Type := mkDB {
  accounts : list Account;
  oauth_accounts : list OauthAccount;
  accounts_id_seq : Z
}.

Definition empty_db : DB := mkDB [] [] 0.

(** The outcome of one round trip to the store, as seen by the driver:
    [None] when the statement reaches the store and is executed, [Some e]
    when the driver reports [e] without the statement taking effect. *)
Definition Conn := option Error.

(** *** Column assignments of the UPDATE statements *)

Definition set_username (u : string) (a : Account) : Account :=
  mkAccount (ID a) u (Password a) (Locked a) (RequireNewPassword a)
            (PasswordChangedAt a) (CreatedAt a) (UpdatedAt a) (DeletedAt a).

Definition set_password (p : bytes) (a : Account) : Account :=
  mkAccount (ID a) (Username a) p (Locked a) (RequireNewPassword a)
            (PasswordChangedAt a) (CreatedAt a) (UpdatedAt a) (DeletedAt a).

Definition set_locked (b : bool) (a : Account) : Account :=
  mkAccount (ID a) (Username a) (Password a) b (RequireNewPassword a)
            (PasswordChangedAt a) (CreatedAt a) (UpdatedAt a) (DeletedAt a).

Definition set_require_new_password (b : bool) (a : Account) : Account :=
  mkAccount (ID a) (Username a) (Password a) (Locked a) b
            (PasswordChangedAt a) (CreatedAt a) (UpdatedAt a) (DeletedAt a).

Definition set_password_changed_at (t : Time) (a : Account) : Account :=
  mkAccount (ID a) (Username a) (Password a) (Locked a) (RequireNewPassword a)
            t (CreatedAt a) (UpdatedAt a) (DeletedAt a).

Definition set_updated_at (t : Time) (a : Account) : Account :=
  mkAccount (ID a) (Username a) (Password a) (Locked a) (RequireNewPassword a)
            (PasswordChangedAt a) (CreatedAt a) t (DeletedAt a).

Definition set_deleted_at (t : option Time) (a : Account) : Account :=
  mkAccount (ID a) (Username a) (Password a) (Locked a) (RequireNewPassword a)
            (PasswordChangedAt a) (CreatedAt a) (UpdatedAt a) t.

Definition set_id (i : Z) (a : Account) : Account :=
  mkAccount i (Username a) (Password a) (Locked a) (RequireNewPassword a)
            (PasswordChangedAt a) (CreatedAt a) (UpdatedAt a) (DeletedAt a).

(** *** The SQL statements *)

(** [deleted_at IS NULL] *)
Definition live (a : Account) : bool :=
  match DeletedAt a with None => true | Some _ => false end.

(** [SELECT * FROM accounts WHERE id = $1] *)
Definition select_by_id (id : Z) (db : DB) : list Account :=
  List.filter (fun a => ID a =? id) (accounts db).

(** [SELECT * FROM accounts WHERE username = $1 AND deleted_at IS NULL] *)
Definition select_by_username (u : string) (db : DB) : list Account :=
  List.filter (fun a => String.eqb (Username a) u && live a) (accounts db).

(** [oa.provider = $1 AND oa.provider_id = $2] *)
Definition oauth_key (provider providerID : string) (oa : OauthAccount) : bool :=
  String.eqb (Provider oa) provider && String.eqb (ProviderID oa) providerID.

(** [SELECT a.* FROM accounts a INNER JOIN oauth_accounts oa
     ON a.id = oa.account_id WHERE oa.provider = $1 AND oa.provider_id = $2]:
    one copy of the account row per matching link. SQL leaves the order of
    the joined rows open; they are listed here account by account. *)
Definition select_by_oauth (provider providerID : string) (db : DB) : list Account :=
  List.flat_map
    (fun a => List.map (fun _ => a)
       (List.filter (fun oa => (ID a =? AccountID oa) && oauth_key provider providerID oa)
                    (oauth_accounts db)))
    (accounts db).

(** [SELECT * FROM oauth_accounts WHERE account_id = $1]. The query has no
    ORDER BY, so the order of its rows is the store's business; they are
    listed here as they are stored, and what is stated about the result does
    not rely on that order. *)
Definition select_oauth_accounts (accountID : Z) (db : DB) : list OauthAccount :=
  List.filter (fun oa => AccountID oa =? accountID) (oauth_accounts db).

(** [DELETE FROM oauth_accounts WHERE account_id = $1] *)
Definition delete_oauth_accounts (id : Z) (db : DB) : Result Error DB :=
  Ok (mkDB (accounts db)
           (List.filter (fun oa => negb (AccountID oa =? id)) (oauth_accounts db))
           (accounts_id_seq db)).

(** [UPDATE accounts SET ... WHERE id = $n], for assignments that leave
    [username] alone or take the row out of the live accounts. *)
Definition update_rows (set : Account -> Account) (id : Z) (rows : list Account)
  : list Account :=
  List.map (fun a => if ID a =? id then set a else a) rows.

Definition update_accounts (set : Account -> Account) (id : Z) (db : DB)
  : Result Error DB :=
  Ok (mkDB (update_rows set id (accounts db)) (oauth_accounts db) (accounts_id_seq db)).

(** Modelled from the spec: the schema (the migrations) is not part of the
    sources at hand. The uniqueness rule on [accounts.username] is the one of
    the data model: usernames are unique among the accounts whose [deleted_at]
    is null, and archived accounts are excluded from it. [username_taken u id]
    holds when a live row other than the rows with identifier [id] bears [u]. *)
Definition username_taken (u : string) (id : option Z) (db : DB) : bool :=
  List.existsb
    (fun a => live a && String.eqb (Username a) u &&
              match id with Some i => negb (ID a =? i) | None => true end)
    (accounts db).

(** [UPDATE accounts SET username = $1, updated_at = $2 WHERE id = $3]: the
    statement is refused when a live row it would rewrite collides with
    another live row. *)
Definition update_username (u : string) (now : Time) (id : Z) (db : DB)
  : Result Error DB :=
  if List.existsb (fun a => (ID a =? id) && live a) (accounts db)
     && username_taken u (Some id) db
  then Err ConstraintViolation
  else update_accounts (fun a => set_updated_at now (set_username u a)) id db.

(** [INSERT INTO accounts (...) VALUES (...) RETURNING id]: the new row takes
    the next value of the sequence and a null [deleted_at]. *)
Definition insert_account (a : Account) (db : DB) : Result Error (DB * Z) :=
  if username_taken (Username a) None db
  then Err ConstraintViolation
  else
    let id := accounts_id_seq db + 1 in
    Ok (mkDB (accounts db ++ [set_deleted_at None (set_id id a)])
             (oauth_accounts db) id,
        id).

(** Modelled from the spec: the schema of [oauth_accounts] is not part of
    the sources at hand. [account_id] is a foreign key to [accounts.id], and
    no uniqueness rule is attached to ([provider], [provider_id]). *)
Definition insert_oauth_account (oa : OauthAccount) (db : DB) : Result Error DB :=
  if List.existsb (fun a => ID a =? AccountID oa) (accounts db)
  then Ok (mkDB (accounts db) (oauth_accounts db ++ [oa]) (accounts_id_seq db))
  else Err ConstraintViolation.

(** *** The driver calls *)

(** [db.Get(&dest, query, args...)]: the first row of the result, or
    [sql.ErrNoRows] when there is none. *)
Definition Get {A} (c : Conn) (rows : list A) : Result Error A :=
  match c with
  | Some e => Err e
  | None => match rows with
            | [] => Err ErrNoRows
            | r :: _ => Ok r
            end
  end.

(** [db.Select(&dest, query, args...)]: all the rows. *)
Definition Select {A} (c : Conn) (rows : list A) : list A * option Error :=
  match c with
  | Some e => ([], Some e)
  | None => (rows, None)
  end.

(** [_, err := db.Exec(query, args...)]: the store after the statement, and
    [err]. A statement that fails changes nothing. *)
Definition Exec (c : Conn) (stmt : DB -> Result Error DB) (db : DB)
  : DB * option Error :=
  match c with
  | Some e => (db, Some e)
  | None => match stmt db with
            | Ok db' => (db', None)
            | Err e => (db, Some e)
            end
  end.

(** *** The methods of [AccountStore] *)

Definition Find (c : Conn) (id : Z) (db : DB) : Result Error (option Account) :=
  match Get c (select_by_id id db) with
  | Err ErrNoRows => Ok None
  | Err e => Err e
  | Ok account =>
      let account :=
        match DeletedAt account with
        | Some _ => set_username "" account
        | None => account
        end in
      Ok (Some account)
  end.

Definition FindByUsername (c : Conn) (u : string) (db : DB)
  : Result Error (option Account) :=
  match Get c (select_by_username u db) with
  | Err ErrNoRows => Ok None
  | Err e => Err e
  | Ok account => Ok (Some account)
  end.

Definition FindByOauthAccount (c : Conn) (provider providerID : string) (db : DB)
  : Result Error (option Account) :=
  match Get c (select_by_oauth provider providerID db) with
  | Err ErrNoRows => Ok None
  | Err e => Err e
  | Ok account => Ok (Some account)
  end.

(** [Create]: [c] is the round trip of [NamedQuery], [scan] the outcome of
    [result.Scan(&id)] on the returned row; [now] is the one reading of
    [time.Now()]. *)
Definition Create (c : Conn) (scan : option Error) (now : Time)
                  (u : string) (p : bytes) (db : DB)
  : DB * Result Error Account :=
  let account := mkAccount 0 u p false false now now now None in
  match c with
  | Some e => (db, Err e)
  | None =>
      match insert_account account db with
      | Err e => (db, Err e)
      | Ok (db', id) =>
          match scan with
          | Some e => (db', Err e)
          | None => (db', Ok (set_id id account))
          end
      end
  end.

Definition AddOauthAccount (c : Conn) (now : Time) (accountID : Z)
                           (provider providerID accessToken : string) (db : DB)
  : DB * option Error :=
  Exec c (insert_oauth_account
            (mkOauthAccount accountID provider providerID accessToken now now)) db.

Definition GetOauthAccounts (c : Conn) (accountID : Z) (db : DB)
  : list OauthAccount * option Error :=
  Select c (select_oauth_accounts accountID db).

(** [Archive]: two statements, each with its own round trip. [now] is the
    reading of [time.Now()], [md5_random] the value the store computes for
    [MD5(RANDOM()::TEXT)]. *)
Definition Archive (c1 c2 : Conn) (now : Time) (md5_random : string)
                   (id : Z) (db : DB) : DB * option Error :=
  let '(db1, err) := Exec c1 (delete_oauth_accounts id) db in
  match err with
  | Some e => (db1, Some e)
  | None =>
      Exec c2 (update_accounts
                 (fun a => set_deleted_at (Some now)
                             (set_password [] (set_username ("@" ++ md5_random)%string a)))
                 id) db1
  end.

Definition Lock (c : Conn) (now : Time) (id : Z) (db : DB) : DB * option Error :=
  Exec c (update_accounts (fun a => set_updated_at now (set_locked true a)) id) db.

Definition Unlock (c : Conn) (now : Time) (id : Z) (db : DB) : DB * option Error :=
  Exec c (update_accounts (fun a => set_updated_at now (set_locked false a)) id) db.

Definition RequireNewPassword (c : Conn) (now : Time) (id : Z) (db : DB)
  : DB * option Error :=
  Exec c (update_accounts
            (fun a => set_updated_at now (set_require_new_password true a)) id) db.

(** [SetPassword] reads the clock twice, once per placeholder: [now1] goes to
    [password_changed_at], [now2] to [updated_at]. *)
Definition SetPassword (c : Conn) (now1 now2 : Time) (id : Z) (p : bytes) (db : DB)
  : DB * option Error :=
  Exec c (update_accounts
            (fun a => set_updated_at now2
                        (set_password_changed_at now1
                           (set_require_new_password false (set_password p a))))
            id) db.

Definition UpdateUsername (c : Conn) (now : Time) (id : Z) (u : string) (db : DB)
  : DB * option Error :=
  Exec c (update_username u now id) db.

(** *** Calls and runs *)

(** What a call draws from outside the store: the round trips, the clock
    readings and the store's random value. *)
Record Oracle : Type := mkOracle {
  conn1 : Conn;
  conn2 : Conn;
  clock1 : Time;
  clock2 : Time;
  random_md5 : string
}.

(** The methods through which callers reach the repository. *)
Inductive Call : Type :=
| CallFind (id : Z)
| CallFindByUsername (u : string)
| CallFindByOauthAccount (provider providerID : string)
| CallCreate (u : string) (p : bytes)
| CallAddOauthAccount (accountID : Z) (provider providerID accessToken : string)
| CallGetOauthAccounts (accountID : Z)
| CallArchive (id : Z)
| CallLock (id : Z)
| CallUnlock (id : Z)
| CallRequireNewPassword (id : Z)
| CallSetPassword (id : Z) (p : bytes)
| CallUpdateUsername (id : Z) (u : string).

(** The store after a call. *)
Definition step (call : Call) (o : Oracle) (db : DB) : DB :=
  match call with
  | CallFind _ | CallFindByUsername _ | CallFindByOauthAccount _ _
  | CallGetOauthAccounts _ => db
  | CallCreate u p => fst (Create (conn1 o) (conn2 o) (clock1 o) u p db)
  | CallAddOauthAccount i pr pid tok =>
      fst (AddOauthAccount (conn1 o) (clock1 o) i pr pid tok db)
  | CallArchive i => fst (Archive (conn1 o) (conn2 o) (clock1 o) (random_md5 o) i db)
  | CallLock i => fst (Lock (conn1 o) (clock1 o) i db)
  | CallUnlock i => fst (Unlock (conn1 o) (clock1 o) i db)
  | CallRequireNewPassword i => fst (RequireNewPassword (conn1 o) (clock1 o) i db)
  | CallSetPassword i p => fst (SetPassword (conn1 o) (clock1 o) (clock2 o) i p db)
  | CallUpdateUsername i u => fst (UpdateUsername (conn1 o) (clock1 o) i u db)
  end.

Definition is_SetPassword (call : Call) : bool :=
  match call with CallSetPassword _ _ => true | _ => false end.

(** The store after a sequence of calls, first call first. *)
Fixpoint run (calls : list (Call * Oracle)) (db : DB) : DB :=
  match calls with
  | [] => db
  | (call, o) :: calls' => run calls' (step call o db)
  end.

(** Two sign-ups; the second account is archived and then gets a link. *)
Definition link_after_archive : list (Call * Oracle) :=
  [ (CallCreate "alice" [1; 2; 3], mkOracle None None 10 10 "");
    (CallCreate "carol" [4; 5], mkOracle None None 12 12 "");
    (CallArchive 2, mkOracle None None 30 30 "9c1e");
    (CallAddOauthAccount 2 "github" "gh-7" "token", mkOracle None None 31 31 "") ].

(** The store keeps [accounts.id] a primary key fed by the sequence. *)
Definition wf (db : DB) : Prop :=
  List.NoDup (List.map ID (accounts db)) /\
  Forall (fun a => ID a <= accounts_id_seq db) (accounts db).

(** Row by row, [rows'] still has every account of [rows] that is required
    to change its password, with the requirement standing. *)
Definition flag_kept (rows rows' : list Account) : Prop :=
  forall k a, nth_error rows k = Some a -> models.RequireNewPassword a = true ->
    exists a', nth_error rows' k = Some a' /\ ID a' = ID a /\
               models.RequireNewPassword a' = true.

(** A live account bears the username [u]. *)
Definition bears_live (u : string) (db : DB) : Prop :=
  exists a, In a (accounts db) /\ Username a = u /\ DeletedAt a = None.

(** A store with one live account that has one linked identity. *)
Definition alice : Account :=
  mkAccount 1 "alice" [1; 2; 3] false true 10 10 10 None.

Definition alice_google : OauthAccount :=
  mkOauthAccount 1 "google" "g-1" "token" 11 11.

Definition db_alice : DB := mkDB [alice] [alice_google] 1.

(** A store where the second account is archived and, later, got a link. *)
Definition carol_archived : Account :=
  mkAccount 2 "@9c1e" [] false true 12 12 12 (Some 30).

Definition carol_github : OauthAccount :=
  mkOauthAccount 2 "github" "gh-7" "token" 31 31.

Definition db_archived : DB :=
  mkDB [alice; carol_archived] [alice_google; carol_github] 2.

End postgres.

(** ** package strings *)

Module strings.

(** [len(s)] *)
Definition len (s : string) : nat := String.length s.

(** [s[n:]] *)
Fixpoint from (n : nat) (s : string) : string :=
  match n, s with
  | O, _ => s
  | S n', String _ s' => from n' s'
  | S _, EmptyString => EmptyString
  end.

(** [s[:n]] *)
Fixpoint upto (n : nat) (s : string) : string :=
  match n, s with
  | S n', String c s' => String c (upto n' s')
  | _, _ => EmptyString
  end.

(** [strings.HasPrefix(s, prefix)] *)
Fixpoint HasPrefix (s prefix : string) : bool :=
  match prefix, s with
  | EmptyString, _ => true
  | String p prefix', String c s' => Ascii.eqb c p && HasPrefix s' prefix'
  | String _ _, EmptyString => false
  end.

(** [strings.Index(s, substr)]: the offset of the first occurrence of
    [substr] in [s]; Go's [-1] is [None]. *)
Fixpoint Index (s substr : string) {struct s} : option nat :=
  if HasPrefix s substr then Some O
  else match s with
       | EmptyString => None
       | String _ s' => option_map S (Index s' substr)
       end.

(** The loop of [strings.Count(s, substr)] for a non-empty [substr]: the
    occurrences that do not overlap. Every round drops at least one byte of
    [s], so [len(s)] rounds are all the loop can make. *)
Fixpoint count_loop (rounds : nat) (s substr : string) : nat :=
  match rounds with
  | O => O
  | S rounds' =>
      match Index s substr with
      | None => O
      | Some i => S (count_loop rounds' (from (i + len substr) s) substr)
      end
  end.

Definition Count (s substr : string) : nat :=
  match substr with
  | EmptyString => S (len s)
  | _ => count_loop (len s) s substr
  end.

(** [explode(s, -1)]: [s] cut into its characters. Go cuts at UTF-8
    sequences; this is the same on ASCII strings, and the only string ever
    cut up this way by the configuration loader is [","]. *)
Fixpoint explode (s : string) : list string :=
  match s with
  | EmptyString => []
  | String c s' => String c EmptyString :: explode s'
  end.

(** The loop of [genSplit(s, sep, 0, n)]: at most [n - 1] cuts. *)
Fixpoint split_loop (cuts : nat) (s sep : string) : list string :=
  match cuts with
  | O => [s]
  | S cuts' =>
      match Index s sep with
      | None => [s]
      | Some m => upto m s :: split_loop cuts' (from (m + len sep) s) sep
      end
  end.

(** [strings.Split(s, sep)]: [s] cut around each occurrence of [sep]. The
    string to cut comes first, the separator second. *)
Definition Split (s sep : string) : list string :=
  match sep with
  | EmptyString => explode s
  | _ =>
      let n := Nat.min (S (Count s sep)) (S (len s)) in
      split_loop (Nat.pred n) s sep
  end.

(** [strings.Contains(s, substr)] *)
Definition Contains (s substr : string) : bool :=
  match Index s substr with Some _ => true | None => false end.

(** [strings.Cut(s, sep)]: [s] around the first [sep]; all of [s] and
    nothing when there is none. *)
Definition Cut (s sep : string) : string * string :=
  match Index s sep with
  | Some i => (upto i s, from (i + len sep) s)
  | None => (s, EmptyString)
  end.

(** [strings.ToLower(s)], on ASCII letters. *)
Fixpoint ToLower (s : string) : string :=
  match s with
  | EmptyString => EmptyString
  | String c s' =>
      let n := N_of_ascii c in
      String (if (65 <=? n)%N && (n <=? 90)%N then ascii_of_N (n + 32) else c)
             (ToLower s')
  end.

End strings.

(** ** package crypto/sha256 *)

Module sha256.

Definition Size : nat := 32.
Definition BlockSize : nat := 64.

(** [uint32] arithmetic wraps around. *)
Definition u32 (x : Z) : Z := x mod 2 ^ 32.

(** [byte(x)] *)
Definition byte (x : Z) : Z := x mod 256.

(** [bits.RotateLeft32(x, -n)] *)
Definition rotr (x n : Z) : Z :=
  Z.lor (Z.shiftr x n) (u32 (Z.shiftl x (32 - n))).

Definition _K : list Z :=
  [ 1116352408; 1899447441; 3049323471; 3921009573; 961987163; 1508970993;
    2453635748; 2870763221; 3624381080; 310598401; 607225278; 1426881987;
    1925078388; 2162078206; 2614888103; 3248222580; 3835390401; 4022224774;
    264347078; 604807628; 770255983; 1249150122; 1555081692; 1996064986;
    2554220882; 2821834349; 2952996808; 3210313671; 3336571891; 3584528711;
    113926993; 338241895; 666307205; 773529912; 1294757372; 1396182291;
    1695183700; 1986661051; 2177026350; 2456956037; 2730485921; 2820302411;
    3259730800; 3345764771; 3516065817; 3600352804; 4094571909; 275423344;
    430227734; 506948616; 659060556; 883997877; 958139571; 1322822218;
    1537002063; 1747873779; 1955562222; 2024104815; 2227730452; 2361852424;
    2428436474; 2756734187; 3204031479; 3329325298 ].

(** The chaining value [h0 .. h7]. *)
Definition digest : Type := (Z * Z * Z * Z * Z * Z * Z * Z)%type.

Definition init : digest :=
  (1779033703, 3144134277, 1013904242, 2773480762,
   1359893119, 2600822924, 528734635, 1541459225).

(** [w[i] = uint32(p[j])<<24 | uint32(p[j+1])<<16 | uint32(p[j+2])<<8 | uint32(p[j+3])] *)
Fixpoint words (p : bytes) : list Z :=
  match p with
  | b0 :: b1 :: b2 :: b3 :: p' =>
      Z.lor (Z.lor (Z.lor (Z.shiftl b0 24) (Z.shiftl b1 16)) (Z.shiftl b2 8)) b3
      :: words p'
  | _ => []
  end.

(** The message schedule, latest word first: [w[i]] from [w[i-2]], [w[i-7]],
    [w[i-15]] and [w[i-16]]. *)
Fixpoint schedule (n : nat) (w : list Z) : list Z :=
  match n with
  | O => w
  | S n' =>
      let v1 := nth 1 w 0 in
      let t1 := Z.lxor (Z.lxor (rotr v1 17) (rotr v1 19)) (Z.shiftr v1 10) in
      let v2 := nth 14 w 0 in
      let t2 := Z.lxor (Z.lxor (rotr v2 7) (rotr v2 18)) (Z.shiftr v2 3) in
      schedule n' (u32 (t1 + nth 6 w 0 + t2 + nth 15 w 0) :: w)
  end.

(** One round of the compression loop. *)
Definition round (s : digest) (kw : Z * Z) : digest :=
  let '(a, b, c, d, e, f, g, h) := s in
  let '(k, w) := kw in
  let t1 := u32 (h + Z.lxor (Z.lxor (rotr e 6) (rotr e 11)) (rotr e 25)
                 + Z.lxor (Z.land e f) (Z.land (Z.lxor e (Z.ones 32)) g)
                 + k + w) in
  let t2 := u32 (Z.lxor (Z.lxor (rotr a 2) (rotr a 13)) (rotr a 22)
                 + Z.lxor (Z.lxor (Z.land a b) (Z.land a c)) (Z.land b c)) in
  (u32 (t1 + t2), a, b, c, u32 (d + t1), e, f, g).

(** [blockGeneric] on one 64-byte chunk. *)
Definition block (hh : digest) (chunk : bytes) : digest :=
  let w := rev (schedule 48 (rev (words chunk))) in
  let '(a, b, c, d, e, f, g, h) := fold_left round (combine _K w) hh in
  let '(h0, h1, h2, h3, h4, h5, h6, h7) := hh in
  (u32 (h0 + a), u32 (h1 + b), u32 (h2 + c), u32 (h3 + d),
   u32 (h4 + e), u32 (h5 + f), u32 (h6 + g), u32 (h7 + h)).

(** [blockGeneric] over the chunks of [p], whose length is a multiple of 64. *)
Fixpoint blocks (chunks : nat) (hh : digest) (p : bytes) : digest :=
  match chunks with
  | O => hh
  | S chunks' => blocks chunks' (block hh (firstn 64 p)) (skipn 64 p)
  end.

(** Big-endian bytes of a 32-bit and of a 64-bit word. *)
Definition be32 (x : Z) : bytes :=
  [byte (Z.shiftr x 24); byte (Z.shiftr x 16); byte (Z.shiftr x 8); byte x].

Definition be64 (x : Z) : bytes := be32 (Z.shiftr x 32) ++ be32 x.

(** The padding written by [checkSum]: [0x80], zeros up to 56 mod 64, and
    the length of the message in bits. *)
Definition padding (len : nat) : bytes :=
  let r := (len mod 64)%nat in
  let zeros := if (r <? 56)%nat then (55 - r)%nat else (119 - r)%nat in
  128 :: repeat 0 zeros ++ be64 (Z.of_nat len * 8).

(** [sha256.Sum256(data)] *)
Definition Sum256 (data : bytes) : bytes :=
  let p := data ++ padding (length data) in
  let '(h0, h1, h2, h3, h4, h5, h6, h7) :=
    blocks (length p / 64) init p in
  be32 h0 ++ be32 h1 ++ be32 h2 ++ be32 h3 ++
  be32 h4 ++ be32 h5 ++ be32 h6 ++ be32 h7.

End sha256.

(** ** package crypto/hmac *)

Module hmac.

(** [ipad] and [opad] of [hmac.New(sha256.New, key)]: the key, hashed when
    longer than a block, zero-filled to a block and xor-ed with the pad byte. *)
Definition pad (x : Z) (key : bytes) : bytes :=
  let key := if (sha256.BlockSize <? length key)%nat then sha256.Sum256 key else key in
  List.map (fun b => Z.lxor b x)
           (key ++ repeat 0 (sha256.BlockSize - length key)).

(** [mac.Write(message); mac.Sum(nil)] *)
Definition Sum (key message : bytes) : bytes :=
  sha256.Sum256 (pad 92 key ++ sha256.Sum256 (pad 54 key ++ message)).

End hmac.

(** ** package golang.org/x/crypto/pbkdf2 *)

Module pbkdf2.

(** [T[x] ^= U[x]] for every [x] in range of [U] *)
Fixpoint xor (T U : bytes) : bytes :=
  match T, U with
  | t :: T', u :: U' => Z.lxor t u :: xor T' U'
  | _, [] => T
  | [], _ => []
  end.

(** One pass of the inner loop: [U_n = PRF(password, U_(n-1))], folded into
    [T]. The state is the pair ([U], [T]). *)
Definition next (password : bytes) (UT : bytes * bytes) : bytes * bytes :=
  let U := hmac.Sum password (fst UT) in
  (U, xor (snd UT) U).

(** The block [T_i = U_1 ^ U_2 ^ ... ^ U_iter], with
    [U_1 = PRF(password, salt || uint(i))]. *)
Definition T (password salt : bytes) (iter : Z) (i : nat) : bytes :=
  let U1 := hmac.Sum password (salt ++ sha256.be32 (Z.of_nat i)) in
  snd (N.iter (Z.to_N (iter - 1)) (next password) (U1, U1)).

(** [pbkdf2.Key(password, salt, iter, keyLen, sha256.New)] *)
Definition Key (password salt : bytes) (iter : Z) (keyLen : nat) : bytes :=
  let hashLen := sha256.Size in
  let numBlocks := ((keyLen + hashLen - 1) / hashLen)%nat in
  firstn keyLen (flat_map (T password salt iter) (seq 1 numBlocks)).

End pbkdf2.

(** ** package net/url *)

Module url.

Record URL : Type := mkURL {
  Scheme : string;
  Opaque : string;
  Host : string;
  Path : string;
  RawQuery : string;
  Fragment : string
}.

Definition between (lo hi c : ascii) : bool :=
  (N_of_ascii lo <=? N_of_ascii c)%N && (N_of_ascii c <=? N_of_ascii hi)%N.

(** [getScheme(rawURL)]: the scheme and what follows the colon; no scheme
    when the first character that is not a letter comes first or is not a
    digit, [+], [-], [.] or the colon. *)
Fixpoint getScheme_at (i : nat) (s rawURL : string) : Result string (string * string) :=
  match s with
  | EmptyString => Ok (EmptyString, rawURL)
  | String c s' =>
      if between "a" "z" c || between "A" "Z" c then getScheme_at (S i) s' rawURL
      else if between "0" "9" c || Ascii.eqb c "+" || Ascii.eqb c "-" || Ascii.eqb c "."
      then match i with
           | O => Ok (EmptyString, rawURL)
           | S _ => getScheme_at (S i) s' rawURL
           end
      else if Ascii.eqb c ":"
      then match i with
           | O => Err "missing protocol scheme"%string
           | S _ => Ok (strings.upto i rawURL, strings.from (S i) rawURL)
           end
      else Ok (EmptyString, rawURL)
  end.

Definition getScheme (rawURL : string) : Result string (string * string) :=
  getScheme_at 0 rawURL rawURL.

(** A model of [url.Parse] for the URLs of the settings: fragment, scheme,
    query, and the split of what is left into authority and path, with the
    two errors of that split. Percent-decoding and the checks on user
    information, host and port are left out. *)
Definition Parse (rawURL : string) : Result string URL :=
  let '(u, frag) := strings.Cut rawURL "#" in
  match getScheme u with
  | Err e => Err e
  | Ok (scheme, rest) =>
      let scheme := strings.ToLower scheme in
      let '(rest, query) := strings.Cut rest "?" in
      if negb (strings.HasPrefix rest "/") && negb (String.eqb scheme "")
      then Ok (mkURL scheme rest "" "" query frag)
      else if negb (strings.HasPrefix rest "/")
              && strings.Contains (fst (strings.Cut rest "/")) ":"
      then Err "first path segment in URL cannot contain colon"%string
      else if strings.HasPrefix rest "//"
              && (negb (String.eqb scheme "") || negb (strings.HasPrefix rest "///"))
      then
        let authority := strings.from 2 rest in
        match strings.Index authority "/" with
        | Some i => Ok (mkURL scheme "" (strings.upto i authority)
                              (strings.from i authority) query frag)
        | None => Ok (mkURL scheme "" authority "" query frag)
        end
      else Ok (mkURL scheme "" "" rest query frag)
  end.

End url.

(** ** package config *)

Module config.

(** The errors of the loader. *)
Inductive Error : Type :=
| MissingEnv (name : string)
| InvalidInt (name value : string)
| BcryptCostTooLow (cost : Z)
| KeyGeneration (msg : string).

(** The process environment, as [os.Environ()] lists it: one entry per
    ["name=value"] string. *)
Definition Env : Type := list (string * string).

(** [os.LookupEnv(name)]: the value of the first entry under that name. *)
Fixpoint LookupEnv (env : Env) (name : string) : option string :=
  match env with
  | [] => None
  | (k, v) :: env' => if String.eqb k name then Some v else LookupEnv env' name
  end.

(** [time.Duration]: nanoseconds in an [int64]. *)
Definition Duration : Type := Z.
Definition Second : Duration := 1000000000.

(** [int64] arithmetic wraps around. *)
Definition int64 (x : Z) : Z := (x + 2 ^ 63) mod 2 ^ 64 - 2 ^ 63.

(** 20k iterations of PBKDF2 HMAC SHA-256 *)
Definition derive (base : bytes) (salt : string) : bytes :=
  pbkdf2.Key base (bytes_of_string salt) 200000 256.

(** Modelled from the spec: [requireEnv] is not part of the sources at hand.
    A required name that is absent is a failure; a present one yields its
    value. *)
Definition requireEnv (env : Env) (name : string) : string * option Error :=
  match LookupEnv env name with
  | Some val => (val, None)
  | None => (EmptyString, Some (MissingEnv name))
  end.

(** Decimal digits, most significant first. *)
Fixpoint digits (s : string) (acc : Z) : option Z :=
  match s with
  | EmptyString => Some acc
  | String c s' =>
      if url.between "0" "9" c
      then digits s' (acc * 10 + (Z.of_N (N_of_ascii c) - 48))
      else None
  end.

(** A decimal integer with an optional sign, within [int64]. *)
Definition parse_int (s : string) : option Z :=
  let '(neg, body) :=
    match s with
    | String "-" s' => (true, s')
    | String "+" s' => (false, s')
    | _ => (false, s)
    end in
  match body with
  | EmptyString => None
  | _ =>
      match digits body 0 with
      | Some n =>
          let v := if neg : bool then - n else n in
          if (- 2 ^ 63 <=? v) && (v <? 2 ^ 63) then Some v else None
      | None => None
      end
  end.

(** Modelled from the spec: [lookupInt] is not part of the sources at hand.
    An optional integer setting: the default when the name is absent, the
    value when it is an integer, a failure otherwise. *)
Definition lookupInt (env : Env) (name : string) (def : Z) : Z * option Error :=
  match LookupEnv env name with
  | Some val =>
      match parse_int val with
      | Some n => (n, None)
      | None => (0, Some (InvalidInt name val))
      end
  | None => (def, None)
  end.

(** Modelled from the spec: [lookupBool] is not part of the sources at hand.
    An optional boolean setting: the default when the name is absent, and
    otherwise whether the value is one of the truthy strings ["t"], ["true"],
    ["yes"] that the comment on USERNAME_IS_EMAIL lists. *)
Definition lookupBool (env : Env) (name : string) (def : bool) : bool * option Error :=
  match LookupEnv env name with
  | Some val =>
      (String.eqb val "t" || String.eqb val "true" || String.eqb val "yes", None)
  | None => (def, None)
  end.

Section Loader.

(** [*rsa.PrivateKey] *)
Context {PrivateKey : Type}.

(** [url.Parse], of the standard library. *)
Variable url_Parse : string -> Result string url.URL.

(** [rsa.GenerateKey(rand.Reader, bits)]: what key generation comes up with. *)
Variable rsa_GenerateKey : Z -> Result Error PrivateKey.

Record Config : Type := mkConfig {
  ApplicationDomains : list string;
  BcryptCost : Z;
  UsernameIsEmail : bool;
  UsernameMinLength : Z;
  UsernameDomains : list string;
  PasswordMinComplexity : Z;
  RefreshTokenTTL : Duration;
  RedisURL : option url.URL;
  DatabaseURL : option url.URL;
  SessionSigningKey : bytes;
  IdentitySigningKey : option PrivateKey;
  AuthNURL : option url.URL;
  ForceSSL : bool;
  MountedPath : string;
  AccessTokenTTL : Duration
}.

(** The assignments [c.Field = v]. *)
Definition set_ApplicationDomains (v : list string) (c : Config) : Config :=
  mkConfig v (BcryptCost c) (UsernameIsEmail c) (UsernameMinLength c)
    (UsernameDomains c) (PasswordMinComplexity c) (RefreshTokenTTL c) (RedisURL c)
    (DatabaseURL c) (SessionSigningKey c) (IdentitySigningKey c) (AuthNURL c)
    (ForceSSL c) (MountedPath c) (AccessTokenTTL c).

Definition set_BcryptCost (v : Z) (c : Config) : Config :=
  mkConfig (ApplicationDomains c) v (UsernameIsEmail c) (UsernameMinLength c)
    (UsernameDomains c) (PasswordMinComplexity c) (RefreshTokenTTL c) (RedisURL c)
    (DatabaseURL c) (SessionSigningKey c) (IdentitySigningKey c) (AuthNURL c)
    (ForceSSL c) (MountedPath c) (AccessTokenTTL c).

Definition set_UsernameIsEmail (v : bool) (c : Config) : Config :=
  mkConfig (ApplicationDomains c) (BcryptCost c) v (UsernameMinLength c)
    (UsernameDomains c) (PasswordMinComplexity c) (RefreshTokenTTL c) (RedisURL c)
    (DatabaseURL c) (SessionSigningKey c) (IdentitySigningKey c) (AuthNURL c)
    (ForceSSL c) (MountedPath c) (AccessTokenTTL c).

Definition set_UsernameMinLength (v : Z) (c : Config) : Config :=
  mkConfig (ApplicationDomains c) (BcryptCost c) (UsernameIsEmail c) v
    (UsernameDomains c) (PasswordMinComplexity c) (RefreshTokenTTL c) (RedisURL c)
    (DatabaseURL c) (SessionSigningKey c) (IdentitySigningKey c) (AuthNURL c)
    (ForceSSL c) (MountedPath c) (AccessTokenTTL c).

Definition set_UsernameDomains (v : list string) (c : Config) : Config :=
  mkConfig (ApplicationDomains c) (BcryptCost c) (UsernameIsEmail c)
    (UsernameMinLength c) v (PasswordMinComplexity c) (RefreshTokenTTL c) (RedisURL c)
    (DatabaseURL c) (SessionSigningKey c) (IdentitySigningKey c) (AuthNURL c)
    (ForceSSL c) (MountedPath c) (AccessTokenTTL c).

Definition set_PasswordMinComplexity (v : Z) (c : Config) : Config :=
  mkConfig (ApplicationDomains c) (BcryptCost c) (UsernameIsEmail c)
    (UsernameMinLength c) (UsernameDomains c) v (RefreshTokenTTL c) (RedisURL c)
    (DatabaseURL c) (SessionSigningKey c) (IdentitySigningKey c) (AuthNURL c)
    (ForceSSL c) (MountedPath c) (AccessTokenTTL c).

Definition set_RefreshTokenTTL (v : Duration) (c : Config) : Config :=
  mkConfig (ApplicationDomains c) (BcryptCost c) (UsernameIsEmail c)
    (UsernameMinLength c) (UsernameDomains c) (PasswordMinComplexity c) v (RedisURL c)
    (DatabaseURL c) (SessionSigningKey c) (IdentitySigningKey c) (AuthNURL c)
    (ForceSSL c) (MountedPath c) (AccessTokenTTL c).

Definition set_RedisURL (v : option url.URL) (c : Config) : Config :=
  mkConfig (ApplicationDomains c) (BcryptCost c) (UsernameIsEmail c)
    (UsernameMinLength c) (UsernameDomains c) (PasswordMinComplexity c)
    (RefreshTokenTTL c) v (DatabaseURL c) (SessionSigningKey c) (IdentitySigningKey c)
    (AuthNURL c) (ForceSSL c) (MountedPath c) (AccessTokenTTL c).

Definition set_DatabaseURL (v : option url.URL) (c : Config) : Config :=
  mkConfig (ApplicationDomains c) (BcryptCost c) (UsernameIsEmail c)
    (UsernameMinLength c) (UsernameDomains c) (PasswordMinComplexity c)
    (RefreshTokenTTL c) (RedisURL c) v (SessionSigningKey c) (IdentitySigningKey c)
    (AuthNURL c) (ForceSSL c) (MountedPath c) (AccessTokenTTL c).

Definition set_SessionSigningKey (v : bytes) (c : Config) : Config :=
  mkConfig (ApplicationDomains c) (BcryptCost c) (UsernameIsEmail c)
    (UsernameMinLength c) (UsernameDomains c) (PasswordMinComplexity c)
    (RefreshTokenTTL c) (RedisURL c) (DatabaseURL c) v (IdentitySigningKey c)
    (AuthNURL c) (ForceSSL c) (MountedPath c) (AccessTokenTTL c).

Definition set_IdentitySigningKey (v : option PrivateKey) (c : Config) : Config :=
  mkConfig (ApplicationDomains c) (BcryptCost c) (UsernameIsEmail c)
    (UsernameMinLength c) (UsernameDomains c) (PasswordMinComplexity c)
    (RefreshTokenTTL c) (RedisURL c) (DatabaseURL c) (SessionSigningKey c) v
    (AuthNURL c) (ForceSSL c) (MountedPath c) (AccessTokenTTL c).

Definition set_AuthNURL (v : option url.URL) (c : Config) : Config :=
  mkConfig (ApplicationDomains c) (BcryptCost c) (UsernameIsEmail c)
    (UsernameMinLength c) (UsernameDomains c) (PasswordMinComplexity c)
    (RefreshTokenTTL c) (RedisURL c) (DatabaseURL c) (SessionSigningKey c)
    (IdentitySigningKey c) v (ForceSSL c) (MountedPath c) (AccessTokenTTL c).

Definition set_ForceSSL (v : bool) (c : Config) : Config :=
  mkConfig (ApplicationDomains c) (BcryptCost c) (UsernameIsEmail c)
    (UsernameMinLength c) (UsernameDomains c) (PasswordMinComplexity c)
    (RefreshTokenTTL c) (RedisURL c) (DatabaseURL c) (SessionSigningKey c)
    (IdentitySigningKey c) (AuthNURL c) v (MountedPath c) (AccessTokenTTL c).

Definition set_MountedPath (v : string) (c : Config) : Config :=
  mkConfig (ApplicationDomains c) (BcryptCost c) (UsernameIsEmail c)
    (UsernameMinLength c) (UsernameDomains c) (PasswordMinComplexity c)
    (RefreshTokenTTL c) (RedisURL c) (DatabaseURL c) (SessionSigningKey c)
    (IdentitySigningKey c) (AuthNURL c) (ForceSSL c) v (AccessTokenTTL c).

Definition set_AccessTokenTTL (v : Duration) (c : Config) : Config :=
  mkConfig (ApplicationDomains c) (BcryptCost c) (UsernameIsEmail c)
    (UsernameMinLength c) (UsernameDomains c) (PasswordMinComplexity c)
    (RefreshTokenTTL c) (RedisURL c) (DatabaseURL c) (SessionSigningKey c)
    (IdentitySigningKey c) (AuthNURL c) (ForceSSL c) (MountedPath c) v.
(** The zero value [Config{}]. *)
Definition zero : Config :=
  mkConfig [] 0 false 0 [] 0 0 None None [] None None false EmptyString 0.

(** [func(c *Config) error]: the configuration after the call, and the error. *)
Definition configurer : Type := Config -> Config * option Error.

(** The APP_DOMAINS are a list of domains (host & optional port) that may
    refer traffic and be valid JWT audiences. *)
Definition configure_APP_DOMAINS (env : Env) : configurer := fun c =>
  let '(val, err) := requireEnv env "APP_DOMAINS" in
  match err with
  | None => (set_ApplicationDomains (strings.Split "," val) c, err)
  | Some _ => (c, err)
  end.

(** The AUTHN_URL. The [err] of [url.Parse] is declared inside the block:
    the [err] that is returned is the one of [requireEnv]. *)
Definition configure_AUTHN_URL (env : Env) : configurer := fun c =>
  let '(val, err) := requireEnv env "AUTHN_URL" in
  match err with
  | None =>
      match url_Parse val with
      | Ok authnUrl =>
          (set_ForceSSL (String.eqb (url.Scheme authnUrl) "https")
             (set_MountedPath (url.Path authnUrl)
                (set_AuthNURL (Some authnUrl) c)),
           err)
      | Err _ => (c, err)
      end
  | Some _ => (c, err)
  end.

(** The SECRET_KEY_BASE, from which the session key is derived. *)
Definition configure_SECRET_KEY_BASE (env : Env) : configurer := fun c =>
  let '(val, err) := requireEnv env "SECRET_KEY_BASE" in
  match err with
  | None =>
      (set_SessionSigningKey (derive (bytes_of_string val) "session-key-salt") c, err)
  | Some _ => (c, err)
  end.

(** BCRYPT_COST, no lower than 10. *)
Definition configure_BCRYPT_COST (env : Env) : configurer := fun c =>
  let '(cost, err) := lookupInt env "BCRYPT_COST" 11 in
  match err with
  | None =>
      if cost <? 10 then (c, Some (BcryptCostTooLow cost))
      else (set_BcryptCost cost c, err)
  | Some _ => (c, err)
  end.

(** PASSWORD_POLICY_SCORE *)
Definition configure_PASSWORD_POLICY_SCORE (env : Env) : configurer := fun c =>
  let '(minScore, err) := lookupInt env "PASSWORD_POLICY_SCORE" 2 in
  match err with
  | None => (set_PasswordMinComplexity minScore c, err)
  | Some _ => (c, err)
  end.

(** DATABASE_URL; [err] as for AUTHN_URL. *)
Definition configure_DATABASE_URL (env : Env) : configurer := fun c =>
  let '(dbUrl, err) := requireEnv env "DATABASE_URL" in
  match err with
  | None =>
      match url_Parse dbUrl with
      | Ok u => (set_DatabaseURL (Some u) c, err)
      | Err _ => (c, err)
      end
  | Some _ => (c, err)
  end.

(** REDIS_URL; [err] as for AUTHN_URL. *)
Definition configure_REDIS_URL (env : Env) : configurer := fun c =>
  let '(redisUrl, err) := requireEnv env "REDIS_URL" in
  match err with
  | None =>
      match url_Parse redisUrl with
      | Ok u => (set_RedisURL (Some u) c, err)
      | Err _ => (c, err)
      end
  | Some _ => (c, err)
  end.

(** USERNAME_IS_EMAIL *)
Definition configure_USERNAME_IS_EMAIL (env : Env) : configurer := fun c =>
  let '(isEmail, err) := lookupBool env "USERNAME_IS_EMAIL" false in
  match err with
  | None => (set_UsernameIsEmail isEmail c, err)
  | Some _ => (c, err)
  end.

(** EMAIL_USERNAME_DOMAINS *)
Definition configure_EMAIL_USERNAME_DOMAINS (env : Env) : configurer := fun c =>
  match LookupEnv env "EMAIL_USERNAME_DOMAINS" with
  | Some val => (set_UsernameDomains (strings.Split "," val) c, None)
  | None => (c, None)
  end.

(** REFRESH_TOKEN_TTL, in seconds; a year by default ([86400*365.25]). *)
Definition configure_REFRESH_TOKEN_TTL (env : Env) : configurer := fun c =>
  let '(ttl, err) := lookupInt env "REFRESH_TOKEN_TTL" 31557600 in
  match err with
  | None => (set_RefreshTokenTTL (int64 (ttl * Second)) c, err)
  | Some _ => (c, err)
  end.

(** ACCESS_TOKEN_TTL, in seconds; an hour by default. *)
Definition configure_ACCESS_TOKEN_TTL (env : Env) : configurer := fun c =>
  let '(ttl, err) := lookupInt env "ACCESS_TOKEN_TTL" 3600 in
  match err with
  | None => (set_AccessTokenTTL (int64 (ttl * Second)) c, err)
  | Some _ => (c, err)
  end.

Definition configure_UsernameMinLength : configurer := fun c =>
  (set_UsernameMinLength 3 c, None).

Definition configurers (env : Env) : list configurer :=
  [ configure_APP_DOMAINS env;
    configure_AUTHN_URL env;
    configure_SECRET_KEY_BASE env;
    configure_BCRYPT_COST env;
    configure_PASSWORD_POLICY_SCORE env;
    configure_DATABASE_URL env;
    configure_REDIS_URL env;
    configure_USERNAME_IS_EMAIL env;
    configure_EMAIL_USERNAME_DOMAINS env;
    configure_REFRESH_TOKEN_TTL env;
    configure_ACCESS_TOKEN_TTL env;
    configure_UsernameMinLength ].

(** Modelled from the spec: [configure] is not part of the sources at hand.
    The resolvers are applied in order to one shared configuration; the
    loader stops at the first failure and propagates it, and no
    configuration comes out of a failed run. *)
Fixpoint configure_from (fns : list configurer) (c : Config) : Result Error Config :=
  match fns with
  | [] => Ok c
  | fn :: fns' =>
      let '(c', err) := fn c in
      match err with
      | Some e => Err e
      | None => configure_from fns' c'
      end
  end.

Definition configure (fns : list configurer) : Result Error Config :=
  configure_from fns zero.

(** [ReadEnv]: the configuration, or [Err e] for [panic(e)]. *)
Definition ReadEnv (env : Env) : Result Error Config :=
  match configure (configurers env) with
  | Err err => Err err
  | Ok config =>
      match rsa_GenerateKey 2056 with
      | Err err => Err err
      | Ok identityKey => Ok (set_IdentitySigningKey (Some identityKey) config)
      end
  end.

End Loader.

(** Key generation that succeeds, for a key type of one value. *)
Definition generated_key (bits : Z) : Result Error unit := Ok tt.

(** An environment with the required settings; the AUTHN_URL is [authn]. *)
Definition env_with (authn : string) : Env :=
  [ ("APP_DOMAINS", "a.example.com,b.example.com");
    ("AUTHN_URL", authn);
    ("SECRET_KEY_BASE", "0123456789abcdef");
    ("DATABASE_URL", "postgres://db.example.com/authn");
    ("REDIS_URL", "redis://127.0.0.1:6379/11") ].

(** The same environment with EMAIL_USERNAME_DOMAINS set as well. *)
Definition env_with_domains (domains : string) : Env :=
  ("EMAIL_USERNAME_DOMAINS", domains) :: env_with "https://app.example.com/authn".

(** The same environment with BCRYPT_COST set as well. *)
Definition env_with_cost (cost : string) : Env :=
  ("BCRYPT_COST", cost) :: env_with "https://app.example.com/authn".

(** The values a byte takes. *)
Definition is_byte (x : Z) : Prop := 0 <= x < 256.

End config.

(** * The account store *)

Section AccountStore.
Import models postgres.

(** ** Rows, statements and their frames *)

Lemma update_rows_miss set id rows :
  Forall (fun a => ID a <> id) rows -> update_rows set id rows = rows.
Proof.
  induction 1 as [|a rows Ha _ IH]; simpl; [reflexivity|].
  destruct (Z.eqb_spec (ID a) id); [contradiction|].
  now rewrite IH.
Qed.

Lemma update_rows_nth set id rows k a :
  nth_error rows k = Some a ->
  nth_error (update_rows set id rows) k = Some (if ID a =? id then set a else a).
Proof.
  intros H. unfold update_rows. rewrite nth_error_map, H. reflexivity.
Qed.

Lemma update_rows_ids set id rows :
  (forall a, ID (set a) = ID a) ->
  List.map ID (update_rows set id rows) = List.map ID rows.
Proof.
  intros Hset. induction rows as [|a rows IH]; simpl; [reflexivity|].
  rewrite IH. destruct (ID a =? id); [rewrite Hset|]; reflexivity.
Qed.

Lemma existsb_miss id rows (P : Account -> bool) :
  Forall (fun a => ID a <> id) rows ->
  List.existsb (fun a => (ID a =? id) && P a) rows = false.
Proof.
  induction 1 as [|a rows Ha _ IH]; simpl; [reflexivity|].
  destruct (Z.eqb_spec (ID a) id); [contradiction|]. exact IH.
Qed.

Lemma db_eta db : mkDB (accounts db) (oauth_accounts db) (accounts_id_seq db) = db.
Proof. destruct db; reflexivity. Qed.

(** Under the primary key, the rows selected by an identifier are the one
    row that bears it. *)
Lemma select_by_id_pk db a :
  List.NoDup (List.map ID (accounts db)) -> In a (accounts db) ->
  select_by_id (ID a) db = [a].
Proof.
  unfold select_by_id. generalize (accounts db) as rows.
  induction rows as [|b rows IH]; simpl; intros Hnd Hin; [contradiction|].
  inversion Hnd as [|? ? Hfresh Hnd']; subst.
  assert (Hrest : forall x, In x rows -> ID x = ID b ->
                   False) by (intros x Hx Hid; apply Hfresh; rewrite <- Hid;
                              now apply in_map).
  destruct Hin as [->|Hin].
  - rewrite Z.eqb_refl. f_equal.
    clear IH Hnd Hnd' Hfresh. induction rows as [|x rows IH]; simpl; [reflexivity|].
    destruct (Z.eqb_spec (ID x) (ID a)) as [E|_].
    + exfalso. apply (Hrest x); [now left | exact E].
    + apply IH. intros y Hy. apply Hrest. now right.
  - destruct (Z.eqb_spec (ID b) (ID a)) as [E|_].
    + exfalso. apply (Hrest a Hin). now symmetry.
    + now apply IH.
Qed.

Lemma username_taken_spec u db :
  username_taken u None db = true <-> bears_live u db.
Proof.
  unfold username_taken, bears_live. rewrite existsb_exists. split.
  - intros (a & Hin & H). exists a.
    rewrite andb_true_r in H. apply andb_true_iff in H as [Hl Hu].
    apply String.eqb_eq in Hu. unfold live in Hl.
    destruct (DeletedAt a); [discriminate|]. auto.
  - intros (a & Hin & Hu & Hd). exists a. split; [exact Hin|].
    unfold live. rewrite Hd, Hu, String.eqb_refl. reflexivity.
Qed.

Lemma username_free_spec u db :
  username_taken u None db = false <-> ~ bears_live u db.
Proof.
  rewrite <- username_taken_spec. destruct (username_taken u None db); split;
    congruence.
Qed.

(** ** Mutations on an identifier without a row *)

(** C9. When [id] references no row of [accounts], [Lock], [Unlock],
    [RequireNewPassword], [SetPassword] and [UpdateUsername] return nil (no
    error, so no "not found" either) and leave the whole store as it was; and
    whatever the driver reports, the store is never changed. *)
Theorem update_of_missing_id_is_silent (db : DB) (id : Z)
    (Hmiss : Forall (fun a => ID a <> id) (accounts db)) :
  forall (now now' : Time) (p : bytes) (u : string),
    Lock None now id db = (db, None) /\
    Unlock None now id db = (db, None) /\
    RequireNewPassword None now id db = (db, None) /\
    SetPassword None now now' id p db = (db, None) /\
    UpdateUsername None now id u db = (db, None) /\
    (forall c : Conn,
        fst (Lock c now id db) = db /\
        fst (Unlock c now id db) = db /\
        fst (RequireNewPassword c now id db) = db /\
        fst (SetPassword c now now' id p db) = db /\
        fst (UpdateUsername c now id u db) = db).
Proof.
  intros now now' p u.
  assert (Hupd : forall set, update_accounts set id db = Ok db).
  { intros set. unfold update_accounts.
    rewrite (update_rows_miss _ _ _ Hmiss). now rewrite db_eta. }
  assert (Hname : update_username u now id db = Ok db).
  { unfold update_username. rewrite (existsb_miss _ _ _ Hmiss). simpl. apply Hupd. }
  unfold Lock, Unlock, RequireNewPassword, SetPassword, UpdateUsername, Exec.
  rewrite !Hupd, Hname.
  repeat split; try reflexivity; destruct c; reflexivity.
Qed.

Lemma update_of_missing_id_is_silent_witness :
  Lock None 5 7 db_alice = (db_alice, None) /\
  Unlock None 5 7 db_alice = (db_alice, None) /\
  RequireNewPassword None 5 7 db_alice = (db_alice, None) /\
  SetPassword None 5 6 7 [9] db_alice = (db_alice, None) /\
  UpdateUsername None 5 7 "bob" db_alice = (db_alice, None) /\
  (forall c : Conn,
      fst (Lock c 5 7 db_alice) = db_alice /\
      fst (Unlock c 5 7 db_alice) = db_alice /\
      fst (RequireNewPassword c 5 7 db_alice) = db_alice /\
      fst (SetPassword c 5 6 7 [9] db_alice) = db_alice /\
      fst (UpdateUsername c 5 7 "bob" db_alice) = db_alice).
Proof.
  apply (update_of_missing_id_is_silent db_alice 7).
  repeat constructor. simpl. lia.
Defined.

(** ** Archive *)

(** C1, as stated, fails: when the DELETE goes through and the UPDATE is
    refused by the driver, [Archive] returns the error with the links of the
    account gone and the account row as it was: neither none nor all of the
    four effects. *)
Lemma Archive_not_atomic :
  let out := Archive None (Some StorageUnavailable) 20 "0f3a" 1 db_alice in
  snd out = Some StorageUnavailable /\
  oauth_accounts (fst out) = [] /\
  accounts (fst out) = [alice] /\
  fst out <> db_alice /\
  fst out <> fst (Archive None None 20 "0f3a" 1 db_alice).
Proof.
  cbv zeta. repeat split; try reflexivity; intros H; discriminate H.
Qed.

Lemma delete_links_none (id : Z) (l : list OauthAccount) :
  List.filter (fun oa => AccountID oa =? id)
    (List.filter (fun oa => negb (AccountID oa =? id)) l) = [].
Proof.
  induction l as [|oa l IH]; simpl; [reflexivity|].
  destruct (AccountID oa =? id) eqn:E; simpl; [exact IH|]. now rewrite E.
Qed.

Lemma delete_links_keep (id : Z) (l : list OauthAccount) (oa : OauthAccount) :
  AccountID oa <> id ->
  (In oa (List.filter (fun oa => negb (AccountID oa =? id)) l) <-> In oa l).
Proof.
  intros Hne. rewrite filter_In. split; [tauto|]. intros Hin. split; [exact Hin|].
  destruct (Z.eqb_spec (AccountID oa) id); [contradiction|reflexivity].
Qed.

(** Both statements of [Archive] going through. *)
Lemma Archive_success (db : DB) (id : Z) (now : Time) (md5_random : string) :
  exists db', Archive None None now md5_random id db = (db', None) /\
     accounts_id_seq db' = accounts_id_seq db /\
     select_oauth_accounts id db' = [] /\
     (forall oa, AccountID oa <> id ->
                 (In oa (oauth_accounts db') <-> In oa (oauth_accounts db))) /\
     (forall k a, nth_error (accounts db) k = Some a ->
        nth_error (accounts db') k =
          Some (if ID a =? id
                then mkAccount (ID a) ("@" ++ md5_random)%string [] (Locked a)
                       (models.RequireNewPassword a) (PasswordChangedAt a) (CreatedAt a)
                       (UpdatedAt a) (Some now)
                else a)) /\
     List.map ID (accounts db') = List.map ID (accounts db).
Proof.
  eexists. split; [reflexivity|]. simpl.
  split; [reflexivity|]. split; [apply delete_links_none|].
  split; [apply delete_links_keep|]. split.
  - intros k a Hk. rewrite (update_rows_nth _ _ _ _ _ Hk). reflexivity.
  - now apply update_rows_ids.
Qed.

(** C1, amended. [Archive] runs its two statements one after the other:
    - when the DELETE fails, the error is returned and nothing is applied;
    - when the DELETE succeeds and the UPDATE fails, the error is returned,
      the links of the account are gone and [accounts] is untouched;
    - when both succeed, nil is returned and the four effects are in place:
      no link of the account is left (the links of other accounts stay), and
      every row with that identifier has the username ["@" ++ md5_random],
      an empty password and [deleted_at = now], the other rows and columns
      being untouched. *)
Theorem Archive_two_steps (db : DB) (id : Z) (now : Time) (md5_random : string) :
  (forall (e : Error) (c2 : Conn),
      Archive (Some e) c2 now md5_random id db = (db, Some e)) /\
  (forall e : Error,
      exists db', Archive None (Some e) now md5_random id db = (db', Some e) /\
        accounts db' = accounts db /\
        accounts_id_seq db' = accounts_id_seq db /\
        select_oauth_accounts id db' = [] /\
        (forall oa, AccountID oa <> id ->
                    (In oa (oauth_accounts db') <-> In oa (oauth_accounts db)))) /\
  (exists db', Archive None None now md5_random id db = (db', None) /\
     accounts_id_seq db' = accounts_id_seq db /\
     select_oauth_accounts id db' = [] /\
     (forall oa, AccountID oa <> id ->
                 (In oa (oauth_accounts db') <-> In oa (oauth_accounts db))) /\
     (forall k a, nth_error (accounts db) k = Some a ->
        nth_error (accounts db') k =
          Some (if ID a =? id
                then mkAccount (ID a) ("@" ++ md5_random)%string [] (Locked a)
                       (models.RequireNewPassword a) (PasswordChangedAt a) (CreatedAt a)
                       (UpdatedAt a) (Some now)
                else a)) /\
     List.map ID (accounts db') = List.map ID (accounts db)).
Proof.
  split; [|split].
  - intros e c2. reflexivity.
  - intros e. eexists. split; [reflexivity|]. simpl.
    repeat split; try apply delete_links_none; apply delete_links_keep; assumption.
  - apply Archive_success.
Qed.

Lemma Archive_two_steps_witness :
  exists db', Archive None None 20 "0f3a" 1 db_alice = (db', None) /\
    select_oauth_accounts 1 db' = [] /\
    nth_error (accounts db') 0 =
      Some (mkAccount 1 "@0f3a" [] false true 10 10 10 (Some 20)).
Proof.
  destruct (Archive_two_steps db_alice 1 20 "0f3a")
    as (_ & _ & db' & E & _ & Hl & _ & Hrow & _).
  exists db'. split; [exact E|]. split; [exact Hl|].
  exact (Hrow 0%nat alice eq_refl).
Defined.

(** ** Lookups *)

Lemma FindByUsername_live (db : DB) (c : Conn) (u : string) (b : Account) :
  FindByUsername c u db = Ok (Some b) ->
  In b (accounts db) /\ Username b = u /\ DeletedAt b = None.
Proof.
  unfold FindByUsername, Get.
  destruct c as [[]|]; try discriminate.
  destruct (select_by_username u db) as [|r rows] eqn:E; [discriminate|].
  intros [= <-].
  assert (Hr : In r (select_by_username u db)) by (rewrite E; now left).
  unfold select_by_username in Hr. apply filter_In in Hr as [Hr Hc].
  apply andb_true_iff in Hc as [Hu Hl]. apply String.eqb_eq in Hu.
  unfold live in Hl. destruct (DeletedAt r); [discriminate|]. auto.
Qed.

Lemma Find_archived_row (db : DB) (a : Account) :
  In a (accounts db) -> List.NoDup (List.map ID (accounts db)) ->
  DeletedAt a <> None ->
  Find None (ID a) db = Ok (Some (set_username "" a)).
Proof.
  intros Hin Hpk Hdel. unfold Find. rewrite (select_by_id_pk db a Hpk Hin). simpl.
  destruct (DeletedAt a); [reflexivity|contradiction].
Qed.

(** C2. [FindByUsername] never returns an archived account, whatever the
    username asked for: what it returns is a stored row that bears the
    username and has a null [deleted_at], or "not found". *)
Theorem FindByUsername_skips_archived (db : DB) (a : Account)
    (Hin : In a (accounts db)) (Hdel : DeletedAt a <> None) :
  forall (c : Conn) (u : string),
    FindByUsername c u db <> Ok (Some a) /\
    (forall b, FindByUsername c u db = Ok (Some b) ->
               In b (accounts db) /\ Username b = u /\ DeletedAt b = None) /\
    (FindByUsername None u db = Ok None \/
     exists b, FindByUsername None u db = Ok (Some b) /\ DeletedAt b = None).
Proof.
  intros c u. split; [|split].
  - intros E. apply FindByUsername_live in E as (_ & _ & E). contradiction.
  - apply FindByUsername_live.
  - destruct (FindByUsername None u db) as [[b|]|e] eqn:E.
    + right. exists b. split; [reflexivity|]. now apply FindByUsername_live in E.
    + now left.
    + exfalso. revert E. unfold FindByUsername, Get.
      destruct (select_by_username u db); discriminate.
Qed.

(** C3. [Find] hands an archived account back with an empty username,
    whatever username is stored; and right after a successful [Archive] of
    an existing account, [Find] yields a record with an empty username and a
    non-null [deleted_at] (the time of the archival), and no link is listed. *)
Theorem Find_blanks_archived (db : DB) (a : Account)
    (Hin : In a (accounts db)) (Hpk : List.NoDup (List.map ID (accounts db))) :
  (DeletedAt a <> None ->
   Find None (ID a) db = Ok (Some (set_username "" a))) /\
  (forall (c : Conn) (id : Z) (b : Account),
      Find c id db = Ok (Some b) -> DeletedAt b <> None -> Username b = "") /\
  (forall (now : Time) (md5_random : string),
      exists db' b,
        Archive None None now md5_random (ID a) db = (db', None) /\
        Find None (ID a) db' = Ok (Some b) /\
        Username b = "" /\ DeletedAt b = Some now /\ ID b = ID a /\
        GetOauthAccounts None (ID a) db' = ([], None)).
Proof.
  split; [|split].
  - now apply Find_archived_row.
  - intros c id b. unfold Find, Get.
    destruct c as [[]|]; try discriminate.
    destruct (select_by_id id db) as [|r rows]; [discriminate|].
    destruct (DeletedAt r) eqn:E; intros [= <-]; [reflexivity|].
    intros H. now rewrite E in H.
  - intros now md5_random.
    destruct (Archive_success db (ID a) now md5_random)
      as (db' & E & _ & Hl & _ & Hrow & Hids).
    apply In_nth_error in Hin as [k Hk].
    pose proof (Hrow k a Hk) as Hk'. rewrite Z.eqb_refl in Hk'.
    assert (Hpk' : List.NoDup (List.map ID (accounts db'))) by now rewrite Hids.
    apply nth_error_In in Hk'.
    pose proof (select_by_id_pk db' _ Hpk' Hk') as Hsel. simpl in Hsel.
    eexists db', _. split; [exact E|].
    split; [unfold Find; rewrite Hsel; reflexivity|].
    simpl. repeat split; try reflexivity.
    unfold GetOauthAccounts. rewrite Hl. reflexivity.
Qed.

Lemma Find_blanks_archived_witness :
  Find None 2 db_archived = Ok (Some (set_username "" carol_archived)) /\
  exists db' b,
    Archive None None 20 "0f3a" 1 db_archived = (db', None) /\
    Find None 1 db' = Ok (Some b) /\
    Username b = "" /\ DeletedAt b = Some 20 /\ ID b = 1 /\
    GetOauthAccounts None 1 db' = ([], None).
Proof.
  assert (Hpk : List.NoDup (List.map ID (accounts db_archived))).
  { simpl. repeat constructor; simpl; intuition discriminate. }
  split.
  - refine (proj1 (Find_blanks_archived db_archived carol_archived _ Hpk) _).
    + simpl. tauto.
    + discriminate.
  - refine (proj2 (proj2 (Find_blanks_archived db_archived alice _ Hpk)) 20 "0f3a").
    simpl. tauto.
Defined.

Lemma FindByUsername_skips_archived_witness :
  FindByUsername None "@9c1e" db_archived <> Ok (Some carol_archived) /\
  FindByUsername None "@9c1e" db_archived = Ok None.
Proof.
  split; [|reflexivity].
  refine (proj1 (FindByUsername_skips_archived db_archived carol_archived _ _
                   None "@9c1e")).
  - simpl. tauto.
  - discriminate.
Defined.

Lemma pk_injective (rows : list Account) (x y : Account) :
  List.NoDup (List.map ID rows) -> In x rows -> In y rows -> ID x = ID y -> x = y.
Proof.
  induction rows as [|r rows IH]; simpl; [tauto|].
  intros Hnd Hx Hy E. inversion Hnd as [|? ? Hfresh Hnd']; subst.
  destruct Hx as [->|Hx], Hy as [->|Hy]; auto.
  - exfalso. apply Hfresh. rewrite E. now apply in_map.
  - exfalso. apply Hfresh. rewrite <- E. now apply in_map.
Qed.

Lemma in_select_by_oauth (p pid : string) (db : DB) (b : Account) :
  In b (select_by_oauth p pid db) <->
  In b (accounts db) /\
  exists oa, In oa (oauth_accounts db) /\ AccountID oa = ID b /\
             Provider oa = p /\ ProviderID oa = pid.
Proof.
  unfold select_by_oauth. rewrite in_flat_map. split.
  - intros (a & Ha & Hb). apply in_map_iff in Hb as (oa & <- & Hoa).
    apply filter_In in Hoa as [Hoa Hc].
    apply andb_true_iff in Hc as [Hid Hkey]. apply Z.eqb_eq in Hid.
    apply andb_true_iff in Hkey as [Hp Hpid].
    apply String.eqb_eq in Hp, Hpid. split; [exact Ha|]. now exists oa.
  - intros (Hb & oa & Hoa & Hid & Hp & Hpid). exists b. split; [exact Hb|].
    apply in_map_iff. exists oa. split; [reflexivity|].
    apply filter_In. split; [exact Hoa|]. unfold oauth_key.
    rewrite Hid, Z.eqb_refl, Hp, Hpid, !String.eqb_refl. reflexivity.
Qed.



(** ** Create *)

Lemma Create_on_free_username (db : DB) (u : string) (p : bytes) (now : Time) :
  ~ bears_live u db ->
  Create None None now u p db =
    (mkDB (accounts db ++ [mkAccount (accounts_id_seq db + 1) u p false false
                             now now now None])
          (oauth_accounts db) (accounts_id_seq db + 1),
     Ok (mkAccount (accounts_id_seq db + 1) u p false false now now now None)).
Proof.
  intros Hfree. apply username_free_spec in Hfree.
  unfold Create, insert_account. simpl. rewrite Hfree. reflexivity.
Qed.

Lemma Create_on_taken_username (db : DB) (u : string) (p : bytes) (now : Time) :
  bears_live u db -> Create None None now u p db = (db, Err ConstraintViolation).
Proof.
  intros Htaken. apply username_taken_spec in Htaken.
  unfold Create, insert_account. simpl. rewrite Htaken. reflexivity.
Qed.

(** C4. [Create] fails with [ConstraintViolation] when a live account bears
    the username, and succeeds when no live account does (archived accounts
    bearing it do not count). In particular, from a store where the username
    is free among live accounts: a first [Create] succeeds, a second one with
    the same username fails with [ConstraintViolation], and once the first
    account is archived a third one succeeds. *)
Theorem Create_unique_among_live (db : DB) (u : string) (p : bytes) (now : Time) :
  (bears_live u db -> Create None None now u p db = (db, Err ConstraintViolation)) /\
  (~ bears_live u db ->
   exists db1 a1,
     Create None None now u p db = (db1, Ok a1) /\
     Username a1 = u /\ Password a1 = p /\ DeletedAt a1 = None /\
     In a1 (accounts db1) /\
     (forall p2 now2,
         Create None None now2 u p2 db1 = (db1, Err ConstraintViolation)) /\
     (forall now3 md5_random,
         exists db2,
           Archive None None now3 md5_random (ID a1) db1 = (db2, None) /\
           forall p3 now4,
             exists db3 a3,
               Create None None now4 u p3 db2 = (db3, Ok a3) /\
               Username a3 = u /\ Password a3 = p3 /\ In a3 (accounts db3))).
Proof.
  split; [apply Create_on_taken_username|].
  intros Hfree. rewrite (Create_on_free_username _ _ _ _ Hfree).
  set (a1 := mkAccount (accounts_id_seq db + 1) u p false false now now now None).
  set (db1 := mkDB (accounts db ++ [a1]) (oauth_accounts db) (accounts_id_seq db + 1)).
  exists db1, a1. split; [reflexivity|].
  do 3 (split; [reflexivity|]).
  split; [simpl; apply in_or_app; right; now left|]. split.
  - intros p2 now2. apply Create_on_taken_username.
    exists a1. split; [simpl; apply in_or_app; right; now left|]. now split.
  - intros now3 md5_random. eexists. split; [reflexivity|].
    intros p3 now4.
    match goal with |- context [Create _ _ _ _ _ ?d] => set (db2 := d) end.
    assert (Hfree2 : ~ bears_live u db2).
    { intros (b & Hb & Hu & Hd). simpl in Hb. unfold update_rows in Hb.
      apply in_map_iff in Hb as (a & <- & Ha).
      destruct (Z.eqb_spec (ID a) (accounts_id_seq db + 1)) as [_|Hne];
        [discriminate Hd|].
      apply in_app_or in Ha as [Ha|[<-|[]]].
      - apply Hfree. now exists a.
      - now apply Hne. }
    rewrite (Create_on_free_username _ _ _ _ Hfree2).
    eexists _, _. split; [reflexivity|]. do 2 (split; [reflexivity|]).
    simpl. apply in_or_app. right. now left.
Qed.

Lemma Create_unique_among_live_witness :
  exists db1 a1,
    Create None None 1 "alice" [1] empty_db = (db1, Ok a1) /\
    Create None None 2 "alice" [2] db1 = (db1, Err ConstraintViolation) /\
    exists db2,
      Archive None None 3 "0f3a" (ID a1) db1 = (db2, None) /\
      exists db3 a3, Create None None 4 "alice" [3] db2 = (db3, Ok a3) /\
                     Username a3 = "alice".
Proof.
  destruct (Create_unique_among_live empty_db "alice" [1] 1) as [_ H].
  destruct H as (db1 & a1 & E1 & _ & _ & _ & _ & Hdup & Harch).
  - intros (a & [] & _).
  - exists db1, a1. split; [exact E1|]. split; [apply Hdup|].
    destruct (Harch 3 "0f3a") as (db2 & E2 & Hnew).
    exists db2. split; [exact E2|].
    destruct (Hnew [3] 4) as (db3 & a3 & E3 & Hu & _).
    now exists db3, a3.
Defined.

(** ** SetPassword and the password requirement *)

Lemma flag_kept_refl (rows : list Account) : flag_kept rows rows.
Proof. intros k a Hk Hf. now exists a. Qed.

Lemma flag_kept_update (set : Account -> Account) (id : Z) (rows : list Account) :
  (forall a, ID (set a) = ID a) ->
  (forall a, models.RequireNewPassword a = true ->
             models.RequireNewPassword (set a) = true) ->
  flag_kept rows (update_rows set id rows).
Proof.
  intros Hid Hflag k a Hk Hf. rewrite (update_rows_nth _ _ _ _ _ Hk).
  eexists. split; [reflexivity|].
  destruct (ID a =? id); auto.
Qed.

Lemma flag_kept_app (rows : list Account) (x : Account) :
  flag_kept rows (rows ++ [x]).
Proof.
  intros k a Hk Hf. exists a. split; [|now split].
  rewrite nth_error_app1; [exact Hk|]. apply nth_error_Some. congruence.
Qed.

Lemma step_keeps_flag (call : Call) (o : Oracle) (db : DB) :
  is_SetPassword call = false ->
  flag_kept (accounts db) (accounts (step call o db)).
Proof.
  destruct call; simpl; intros Hcall; try discriminate Hcall;
    try apply flag_kept_refl.
  - unfold Create, insert_account.
    destruct (conn1 o); [apply flag_kept_refl|]. cbn [Username].
    destruct (username_taken u None db); [apply flag_kept_refl|].
    destruct (conn2 o); simpl; apply flag_kept_app.
  - unfold AddOauthAccount, Exec, insert_oauth_account.
    destruct (conn1 o); [apply flag_kept_refl|]. simpl.
    destruct (List.existsb _ _); apply flag_kept_refl.
  - unfold Archive, Exec. destruct (conn1 o); [apply flag_kept_refl|]. simpl.
    destruct (conn2 o); [apply flag_kept_refl|]. simpl.
    now apply flag_kept_update.
  - unfold Lock, Exec. destruct (conn1 o); [apply flag_kept_refl|].
    now apply flag_kept_update.
  - unfold Unlock, Exec. destruct (conn1 o); [apply flag_kept_refl|].
    now apply flag_kept_update.
  - unfold RequireNewPassword, Exec. destruct (conn1 o); [apply flag_kept_refl|].
    now apply flag_kept_update.
  - unfold UpdateUsername, Exec, update_username.
    destruct (conn1 o); [apply flag_kept_refl|].
    destruct (_ && _); [apply flag_kept_refl|].
    now apply flag_kept_update.
Qed.

(** C5. Whatever the account's [requireNewPassword] was, a [SetPassword]
    that returns nil leaves the account with the new password, the
    requirement cleared, [passwordChangedAt] and [updatedAt] at the clock
    readings of the operation and the other columns as they were; it does
    return nil whenever the statement reaches the store. No other call of
    the repository takes the requirement from true to false. *)
Theorem SetPassword_clears_requirement (db : DB) (k : nat) (a : Account)
    (Hrow : nth_error (accounts db) k = Some a) :
  (forall (c : Conn) (now1 now2 : Time) (p : bytes),
      snd (SetPassword c now1 now2 (ID a) p db) = None ->
      nth_error (accounts (fst (SetPassword c now1 now2 (ID a) p db))) k =
        Some (mkAccount (ID a) (Username a) p (Locked a) false now1
                        (CreatedAt a) now2 (DeletedAt a))) /\
  (forall (now1 now2 : Time) (p : bytes),
      snd (SetPassword None now1 now2 (ID a) p db) = None) /\
  (forall (call : Call) (o : Oracle),
      is_SetPassword call = false ->
      models.RequireNewPassword a = true ->
      exists a', nth_error (accounts (step call o db)) k = Some a' /\
                 ID a' = ID a /\ models.RequireNewPassword a' = true).
Proof.
  split; [|split].
  - intros c now1 now2 p. unfold SetPassword, Exec.
    destruct c; [discriminate|]. simpl. intros _.
    rewrite (update_rows_nth _ _ _ _ _ Hrow), Z.eqb_refl. reflexivity.
  - reflexivity.
  - intros call o Hcall Hflag. now apply (step_keeps_flag call o db Hcall k a).
Qed.

Lemma SetPassword_clears_requirement_witness :
  nth_error (accounts (fst (SetPassword None 40 41 1 [7; 7] db_alice))) 0 =
    Some (mkAccount 1 "alice" [7; 7] false false 40 10 41 None) /\
  exists a', nth_error (accounts (step (CallLock 1) (mkOracle None None 50 51 "")
                                       db_alice)) 0 = Some a' /\
             ID a' = 1 /\ models.RequireNewPassword a' = true.
Proof.
  destruct (SetPassword_clears_requirement db_alice 0 alice eq_refl) as (H1 & _ & H3).
  split.
  - exact (H1 None 40 41 [7; 7] eq_refl).
  - exact (H3 (CallLock 1) (mkOracle None None 50 51 "") eq_refl eq_refl).
Defined.

(** ** The primary key *)

Lemma wf_empty_db : wf empty_db.
Proof. split; constructor. Qed.

Lemma wf_update (set : Account -> Account) (id : Z) (db : DB) :
  (forall a, ID (set a) = ID a) -> wf db ->
  wf (mkDB (update_rows set id (accounts db)) (oauth_accounts db) (accounts_id_seq db)).
Proof.
  intros Hid [Hnd Hle]. split; simpl.
  - now rewrite update_rows_ids.
  - rewrite List.Forall_forall in *. intros b Hb. unfold update_rows in Hb.
    apply in_map_iff in Hb as (a & <- & Ha). specialize (Hle a Ha).
    destruct (ID a =? id); [rewrite Hid|]; exact Hle.
Qed.

Lemma wf_insert (x : Account) (db : DB) :
  wf db ->
  wf (mkDB (accounts db ++ [set_deleted_at None (set_id (accounts_id_seq db + 1) x)])
           (oauth_accounts db) (accounts_id_seq db + 1)).
Proof.
  intros [Hnd Hle]. split; simpl.
  - rewrite List.map_app. simpl. apply List.NoDup_app; [exact Hnd| |].
    + repeat constructor. simpl. tauto.
    + intros i Hi [<-|[]]. apply in_map_iff in Hi as (a & Hid & Ha).
      rewrite List.Forall_forall in Hle. specialize (Hle a Ha). lia.
  - apply List.Forall_app. split.
    + eapply List.Forall_impl; [|exact Hle]. simpl. intros; lia.
    + repeat constructor. simpl. lia.
Qed.

(** Every call keeps [accounts.id] a key, so the stores reached from the
    empty one all have it. *)
Lemma step_wf (call : Call) (o : Oracle) (db : DB) : wf db -> wf (step call o db).
Proof.
  intros Hwf. destruct call; simpl; try exact Hwf.
  - unfold Create, insert_account. destruct (conn1 o); [exact Hwf|].
    cbn [Username].
    destruct (username_taken u None db); [exact Hwf|].
    destruct (conn2 o); simpl; now apply wf_insert.
  - unfold AddOauthAccount, Exec, insert_oauth_account.
    destruct (conn1 o); [exact Hwf|]. simpl.
    destruct (List.existsb _ _); [|exact Hwf]. exact Hwf.
  - unfold Archive, Exec. destruct (conn1 o); [exact Hwf|]. simpl.
    destruct (conn2 o); simpl; [exact Hwf|]. now apply (wf_update _ id (mkDB _ _ _)).
  - unfold Lock, Exec. destruct (conn1 o); [exact Hwf|]. now apply wf_update.
  - unfold Unlock, Exec. destruct (conn1 o); [exact Hwf|]. now apply wf_update.
  - unfold RequireNewPassword, Exec. destruct (conn1 o); [exact Hwf|].
    now apply wf_update.
  - unfold SetPassword, Exec. destruct (conn1 o); [exact Hwf|].
    now apply wf_update.
  - unfold UpdateUsername, Exec, update_username. destruct (conn1 o); [exact Hwf|].
    destruct (_ && _); [exact Hwf|]. now apply wf_update.
Qed.

Lemma run_wf (calls : list (Call * Oracle)) (db : DB) :
  wf db -> wf (run calls db).
Proof.
  revert db. induction calls as [|[call o] calls IH]; simpl; intros db Hwf;
    [exact Hwf|].
  apply IH. now apply step_wf.
Qed.

(** The calls of the repository do lead to a store where a link references
    an archived account: a link added after the archival. *)
Example link_to_archived_account :
  let db := run link_after_archive empty_db in
  FindByOauthAccount None "github" "gh-7" db =
    Ok (Some (mkAccount 2 "@9c1e" [] false false 12 12 12 (Some 30))) /\
  Find None 2 db = Ok (Some (mkAccount 2 "" [] false false 12 12 12 (Some 30))) /\
  FindByUsername None "carol" db = Ok None /\
  FindByUsername None "@9c1e" db = Ok None.
Proof. repeat split. Qed.

End AccountStore.

(** * Key derivation *)

Section KeyDerivation.
Import config.

(** ** Test vectors *)

Example Sum256_abc :
  sha256.Sum256 (bytes_of_string "abc") =
    [186; 120; 22; 191; 143; 1; 207; 234; 65; 65; 64; 222; 93; 174; 34; 35;
     176; 3; 97; 163; 150; 23; 122; 156; 180; 16; 255; 97; 242; 0; 21; 173].
Proof. vm_compute. reflexivity. Qed.

Example hmac_rfc4231_case2 :
  hmac.Sum (bytes_of_string "Jefe") (bytes_of_string "what do ya want for nothing?") =
    [91; 220; 193; 70; 191; 96; 117; 78; 106; 4; 36; 38; 8; 149; 117; 199;
     90; 0; 63; 8; 157; 39; 57; 131; 157; 236; 88; 185; 100; 236; 56; 67].
Proof. vm_compute. reflexivity. Qed.

Example pbkdf2_two_rounds :
  pbkdf2.Key (bytes_of_string "password") (bytes_of_string "salt") 2 32 =
    [174; 77; 12; 149; 175; 107; 70; 211; 45; 10; 223; 249; 40; 240; 109; 208;
     42; 48; 63; 142; 243; 194; 81; 223; 214; 226; 216; 90; 149; 71; 76; 67].
Proof. vm_compute. reflexivity. Qed.

(** ** The shape of the derived key *)

Lemma byte_is_byte (x : Z) : is_byte (sha256.byte x).
Proof. unfold is_byte, sha256.byte. apply Z.mod_pos_bound. lia. Qed.

Lemma lxor_is_byte (a b : Z) : is_byte a -> is_byte b -> is_byte (Z.lxor a b).
Proof.
  unfold is_byte. intros [Ha Ha'] [Hb Hb'].
  assert (H0 : 0 <= Z.lxor a b) by (apply Z.lxor_nonneg; tauto).
  split; [exact H0|].
  destruct (Z.eq_dec (Z.lxor a b) 0) as [->|Hne]; [lia|].
  apply (Z.log2_lt_pow2 _ 8); [lia|].
  pose proof (Z.log2_lxor a b Ha Hb) as Hlog.
  assert (Hla : Z.log2 a < 8).
  { destruct (Z.eq_dec a 0) as [->|]; [reflexivity|].
    apply Z.log2_lt_pow2; lia. }
  assert (Hlb : Z.log2 b < 8).
  { destruct (Z.eq_dec b 0) as [->|]; [reflexivity|].
    apply Z.log2_lt_pow2; lia. }
  lia.
Qed.

Lemma Sum256_shape (data : bytes) :
  length (sha256.Sum256 data) = 32%nat /\ Forall is_byte (sha256.Sum256 data).
Proof.
  unfold sha256.Sum256.
  destruct (sha256.blocks _ _ _) as [[[[[[[h0 h1] h2] h3] h4] h5] h6] h7].
  unfold sha256.be32. split; [reflexivity|].
  repeat constructor; apply byte_is_byte.
Qed.

Lemma xor_shape (T U : bytes) :
  length U = length T -> Forall is_byte T -> Forall is_byte U ->
  length (pbkdf2.xor T U) = length T /\ Forall is_byte (pbkdf2.xor T U).
Proof.
  revert U. induction T as [|t T IH]; intros [|u U] Hlen HT HU;
    try discriminate Hlen; simpl; [split; [reflexivity|constructor]|].
  inversion HT; inversion HU; subst.
  injection Hlen as Hlen. destruct (IH U Hlen) as [Hl Hb]; try assumption.
  split; [now rewrite Hl|]. constructor; [now apply lxor_is_byte|exact Hb].
Qed.

Lemma T_shape (password salt : bytes) (iter : Z) (i : nat) :
  length (pbkdf2.T password salt iter i) = 32%nat /\
  Forall is_byte (pbkdf2.T password salt iter i).
Proof.
  unfold pbkdf2.T.
  set (Inv := fun UT : bytes * bytes =>
                (length (fst UT) = 32%nat /\ Forall is_byte (fst UT)) /\
                (length (snd UT) = 32%nat /\ Forall is_byte (snd UT))).
  assert (H : Inv (N.iter (Z.to_N (iter - 1)) (pbkdf2.next password)
                     (hmac.Sum password (salt ++ sha256.be32 (Z.of_nat i)),
                      hmac.Sum password (salt ++ sha256.be32 (Z.of_nat i))))).
  { apply N.iter_invariant.
    - intros [U T] [[HU HU'] [HT HT']]. unfold pbkdf2.next, Inv.
      cbn [fst snd] in *.
      pose proof (Sum256_shape
        (hmac.pad 92 password ++ sha256.Sum256 (hmac.pad 54 password ++ U)))
        as [Hs Hs'].
      fold (hmac.Sum password U) in Hs, Hs'.
      split; [now split|].
      destruct (xor_shape T (hmac.Sum password U)) as [Hx Hx']; try assumption.
      + now rewrite Hs, HT.
      + split; [now rewrite Hx|exact Hx'].
    - unfold Inv, hmac.Sum. cbn [fst snd].
      split; apply Sum256_shape. }
  exact (proj2 H).
Qed.

Lemma Key_shape (password salt : bytes) (iter : Z) :
  length (pbkdf2.Key password salt iter 256) = 256%nat /\
  Forall is_byte (pbkdf2.Key password salt iter 256).
Proof.
  unfold pbkdf2.Key.
  change ((256 + sha256.Size - 1) / sha256.Size)%nat with 8%nat.
  split.
  - rewrite List.length_firstn.
    rewrite (List.flat_map_constant_length (c := 32)).
    + rewrite List.length_seq. reflexivity.
    + intros i _. apply T_shape.
  - assert (Hall : Forall is_byte
               (List.flat_map (pbkdf2.T password salt iter) (seq 1 8))).
    { apply List.Forall_flat_map. apply List.Forall_forall. intros i _.
      apply T_shape. }
    revert Hall. generalize (List.flat_map (pbkdf2.T password salt iter) (seq 1 8)).
    generalize 256%nat. intros n l. revert n.
    induction l as [|x l IH]; intros [|n] Hl; simpl; try constructor.
    + now inversion Hl.
    + apply IH. now inversion Hl.
Qed.

Lemma derive_shape (base : bytes) (salt : string) :
  length (derive base salt) = 256%nat /\ Forall is_byte (derive base salt).
Proof. unfold derive. apply Key_shape. Qed.

End KeyDerivation.

(** * The configuration loader *)

Section Loader.
Import config.

Context {PrivateKey : Type}.
Variable url_Parse : string -> Result string url.URL.
Variable rsa_GenerateKey : Z -> Result Error PrivateKey.

#[local] Opaque config.derive.

(** ** Domain lists *)

(** With the comma as the string to cut and the value as the separator,
    [strings.Split] yields the comma itself, whatever the value, unless the
    value is the comma. *)
Lemma Split_of_comma (v : string) :
  v <> ","%string -> strings.Split "," v = [","%string].
Proof.
  intros Hv. destruct v as [|c [|c' v']]; [reflexivity| |].
  - destruct (Ascii.eqb_spec "," c) as [<-|Hc]; [contradiction|].
    apply Ascii.eqb_neq in Hc.
    unfold strings.Split, strings.Count. cbn -[Ascii.eqb]. rewrite Hc.
    reflexivity.
  - unfold strings.Split, strings.Count. cbn -[Ascii.eqb].
    rewrite !andb_false_r. reflexivity.
Qed.

Lemma configure_APP_DOMAINS_bound (env : Env) (v : string) (c : Config) :
  LookupEnv env "APP_DOMAINS" = Some v ->
  configure_APP_DOMAINS (PrivateKey := PrivateKey) env c =
    (set_ApplicationDomains (strings.Split "," v) c, None).
Proof. intros H. unfold configure_APP_DOMAINS, requireEnv. now rewrite H. Qed.

Lemma configure_EMAIL_USERNAME_DOMAINS_bound (env : Env) (v : string) (c : Config) :
  LookupEnv env "EMAIL_USERNAME_DOMAINS" = Some v ->
  configure_EMAIL_USERNAME_DOMAINS (PrivateKey := PrivateKey) env c =
    (set_UsernameDomains (strings.Split "," v) c, None).
Proof. intros H. unfold configure_EMAIL_USERNAME_DOMAINS. now rewrite H. Qed.

(** ** URL settings *)

(** The resolvers of the three URL settings return nil when [url.Parse]
    fails, and leave the configuration as it was. *)
Lemma configure_URL_parse_error (env : Env) (v e : string) (c : Config) :
  url_Parse v = Err e ->
  (LookupEnv env "AUTHN_URL" = Some v ->
   configure_AUTHN_URL url_Parse env c = (c, None)) /\
  (LookupEnv env "DATABASE_URL" = Some v ->
   configure_DATABASE_URL (PrivateKey := PrivateKey) url_Parse env c = (c, None)) /\
  (LookupEnv env "REDIS_URL" = Some v ->
   configure_REDIS_URL (PrivateKey := PrivateKey) url_Parse env c = (c, None)).
Proof.
  intros He. repeat split; intros H;
    unfold configure_AUTHN_URL, configure_DATABASE_URL, configure_REDIS_URL,
           requireEnv; now rewrite H, He.
Qed.

(** ** Runs of the loader *)

(** The loader stops at the first resolver that fails and hands its error
    on; the resolvers after it are not run. *)
Lemma configure_from_stops (pre post : list configurer) (fn : configurer)
      (c c' c'' : Config (PrivateKey := PrivateKey)) (e : Error) :
  configure_from pre c = Ok c' -> fn c' = (c'', Some e) ->
  configure_from (pre ++ fn :: post) c = Err e.
Proof.
  revert c. induction pre as [|g pre IH]; simpl; intros c Hpre Hfn.
  - injection Hpre as ->. now rewrite Hfn.
  - destruct (g c) as [c1 [e1|]]; [discriminate|]. now apply IH.
Qed.

(** A failed run of the resolvers makes [ReadEnv] panic with that failure. *)
Lemma ReadEnv_panics (env : Env) (e : Error) :
  configure (PrivateKey := PrivateKey) (configurers url_Parse env) = Err e ->
  ReadEnv url_Parse rsa_GenerateKey env = Err e.
Proof. intros H. unfold ReadEnv. now rewrite H. Qed.

(** The run on an environment that sets the required names (and maybe
    EMAIL_USERNAME_DOMAINS) and nothing else. *)
Lemma ReadEnv_on_required (env : Env) (app authn secret dburl redis : string)
      (domains : option string) (key : PrivateKey) :
  LookupEnv env "APP_DOMAINS" = Some app ->
  LookupEnv env "AUTHN_URL" = Some authn ->
  LookupEnv env "SECRET_KEY_BASE" = Some secret ->
  LookupEnv env "DATABASE_URL" = Some dburl ->
  LookupEnv env "REDIS_URL" = Some redis ->
  LookupEnv env "EMAIL_USERNAME_DOMAINS" = domains ->
  LookupEnv env "BCRYPT_COST" = None ->
  LookupEnv env "PASSWORD_POLICY_SCORE" = None ->
  LookupEnv env "USERNAME_IS_EMAIL" = None ->
  LookupEnv env "REFRESH_TOKEN_TTL" = None ->
  LookupEnv env "ACCESS_TOKEN_TTL" = None ->
  rsa_GenerateKey 2056 = Ok key ->
  exists c : Config,
    ReadEnv url_Parse rsa_GenerateKey env = Ok c /\
    ApplicationDomains c = strings.Split "," app /\
    UsernameDomains c =
      match domains with Some d => strings.Split "," d | None => [] end /\
    AuthNURL c = match url_Parse authn with Ok u => Some u | Err _ => None end /\
    MountedPath c =
      match url_Parse authn with Ok u => url.Path u | Err _ => EmptyString end /\
    ForceSSL c =
      match url_Parse authn with
      | Ok u => String.eqb (url.Scheme u) "https"
      | Err _ => false
      end /\
    DatabaseURL c = match url_Parse dburl with Ok u => Some u | Err _ => None end /\
    RedisURL c = match url_Parse redis with Ok u => Some u | Err _ => None end /\
    SessionSigningKey c = derive (bytes_of_string secret) "session-key-salt" /\
    BcryptCost c = 11 /\
    IdentitySigningKey c = Some key.
Proof.
  intros Happ Hauthn Hsecret Hdb Hredis Hdom Hcost Hscore Hmail Hrefresh Haccess Hkey.
  unfold ReadEnv, configure, configurers, configure_from,
    configure_APP_DOMAINS, configure_AUTHN_URL, configure_SECRET_KEY_BASE,
    configure_BCRYPT_COST, configure_PASSWORD_POLICY_SCORE, configure_DATABASE_URL,
    configure_REDIS_URL, configure_USERNAME_IS_EMAIL,
    configure_EMAIL_USERNAME_DOMAINS, configure_REFRESH_TOKEN_TTL,
    configure_ACCESS_TOKEN_TTL, configure_UsernameMinLength,
    requireEnv, lookupInt, lookupBool.
  rewrite Happ, Hauthn, Hsecret, Hdb, Hredis, Hdom, Hcost, Hscore, Hmail,
    Hrefresh, Haccess, Hkey.
  destruct (url_Parse authn), (url_Parse dburl), (url_Parse redis), domains;
    (eexists; split; [reflexivity|]; repeat split).
Qed.

End Loader.

(** * Runs of the loader on given environments *)

Section LoaderRuns.
Import config.

#[local] Opaque config.derive.

Lemma env_with_lookups (authn : string) :
  LookupEnv (env_with authn) "APP_DOMAINS" = Some "a.example.com,b.example.com"%string /\
  LookupEnv (env_with authn) "AUTHN_URL" = Some authn /\
  LookupEnv (env_with authn) "SECRET_KEY_BASE" = Some "0123456789abcdef"%string /\
  LookupEnv (env_with authn) "DATABASE_URL" =
    Some "postgres://db.example.com/authn"%string /\
  LookupEnv (env_with authn) "REDIS_URL" = Some "redis://127.0.0.1:6379/11"%string /\
  LookupEnv (env_with authn) "EMAIL_USERNAME_DOMAINS" = None /\
  LookupEnv (env_with authn) "BCRYPT_COST" = None /\
  LookupEnv (env_with authn) "PASSWORD_POLICY_SCORE" = None /\
  LookupEnv (env_with authn) "USERNAME_IS_EMAIL" = None /\
  LookupEnv (env_with authn) "REFRESH_TOKEN_TTL" = None /\
  LookupEnv (env_with authn) "ACCESS_TOKEN_TTL" = None.
Proof. repeat split; vm_compute; reflexivity. Qed.

Lemma env_with_domains_lookups (domains : string) :
  LookupEnv (env_with_domains domains) "APP_DOMAINS" =
    Some "a.example.com,b.example.com"%string /\
  LookupEnv (env_with_domains domains) "AUTHN_URL" =
    Some "https://app.example.com/authn"%string /\
  LookupEnv (env_with_domains domains) "SECRET_KEY_BASE" =
    Some "0123456789abcdef"%string /\
  LookupEnv (env_with_domains domains) "DATABASE_URL" =
    Some "postgres://db.example.com/authn"%string /\
  LookupEnv (env_with_domains domains) "REDIS_URL" =
    Some "redis://127.0.0.1:6379/11"%string /\
  LookupEnv (env_with_domains domains) "EMAIL_USERNAME_DOMAINS" = Some domains /\
  LookupEnv (env_with_domains domains) "BCRYPT_COST" = None /\
  LookupEnv (env_with_domains domains) "PASSWORD_POLICY_SCORE" = None /\
  LookupEnv (env_with_domains domains) "USERNAME_IS_EMAIL" = None /\
  LookupEnv (env_with_domains domains) "REFRESH_TOKEN_TTL" = None /\
  LookupEnv (env_with_domains domains) "ACCESS_TOKEN_TTL" = None.
Proof. repeat split; vm_compute; reflexivity. Qed.

(** C7, on the code: with APP_DOMAINS and EMAIL_USERNAME_DOMAINS both set to
    ["a.example.com,b.example.com"], whose split on the comma has the two
    domains, the loaded configuration has the one-element list [[","]] in
    [ApplicationDomains] and in [UsernameDomains]: the resolvers hand the
    comma to [strings.Split] as the string to cut and the value as the
    separator. *)
Theorem domain_lists_split_backwards :
  strings.Split "a.example.com,b.example.com" "," =
    ["a.example.com"%string; "b.example.com"%string] /\
  strings.Split "," "a.example.com,b.example.com" = [","%string] /\
  exists c : Config,
    ReadEnv url.Parse generated_key (env_with_domains "a.example.com,b.example.com")
      = Ok c /\
    ApplicationDomains c = [","%string] /\
    UsernameDomains c = [","%string].
Proof.
  split; [vm_compute; reflexivity|]. split; [vm_compute; reflexivity|].
  pose proof (env_with_domains_lookups "a.example.com,b.example.com")
    as (H1 & H2 & H3 & H4 & H5 & H6 & H7 & H8 & H9 & H10 & H11).
  destruct (ReadEnv_on_required url.Parse generated_key _ _ _ _ _ _ _ tt
              H1 H2 H3 H4 H5 H6 H7 H8 H9 H10 H11 eq_refl)
    as (c & E & Happ & Hdom & _).
  exists c. split; [exact E|]. split.
  - rewrite Happ. vm_compute. reflexivity.
  - rewrite Hdom. vm_compute. reflexivity.
Qed.

(** C8, on the code: with AUTHN_URL set to [":"], which [url.Parse] refuses
    ("missing protocol scheme"), the loader does not stop: [ReadEnv] returns
    a configuration, with no [AuthNURL], an empty mount path and [ForceSSL]
    off. *)
Theorem ReadEnv_lets_unparseable_URL_in :
  url.Parse ":" = Err "missing protocol scheme"%string /\
  exists c : Config,
    ReadEnv url.Parse generated_key (env_with ":") = Ok c /\
    AuthNURL c = None /\ MountedPath c = EmptyString /\ ForceSSL c = false.
Proof.
  split; [vm_compute; reflexivity|].
  pose proof (env_with_lookups ":")
    as (H1 & H2 & H3 & H4 & H5 & H6 & H7 & H8 & H9 & H10 & H11).
  destruct (ReadEnv_on_required url.Parse generated_key _ _ _ _ _ _ _ tt
              H1 H2 H3 H4 H5 H6 H7 H8 H9 H10 H11 eq_refl)
    as (c & E & _ & _ & Hurl & Hpath & Hssl & _).
  exists c. split; [exact E|]. repeat split; assumption.
Qed.

(** What the loader does get right: the settings read off a parseable
    AUTHN_URL, and the stop at a missing required name or at a cost under 10. *)
Example ReadEnv_https :
  exists c : Config,
    ReadEnv url.Parse generated_key (env_with "https://app.example.com/authn") = Ok c /\
    ForceSSL c = true /\ MountedPath c = "/authn"%string /\
    BcryptCost c = 11.
Proof.
  pose proof (env_with_lookups "https://app.example.com/authn")
    as (H1 & H2 & H3 & H4 & H5 & H6 & H7 & H8 & H9 & H10 & H11).
  destruct (ReadEnv_on_required url.Parse generated_key _ _ _ _ _ _ _ tt
              H1 H2 H3 H4 H5 H6 H7 H8 H9 H10 H11 eq_refl)
    as (c & E & _ & _ & _ & Hpath & Hssl & _ & _ & _ & Hcost & _).
  exists c. split; [exact E|]. repeat split; assumption.
Qed.

Example ReadEnv_missing_name :
  ReadEnv url.Parse generated_key ([] : Env) = Err (MissingEnv "APP_DOMAINS").
Proof. apply ReadEnv_panics. reflexivity. Qed.

Example ReadEnv_low_cost :
  ReadEnv url.Parse generated_key (env_with_cost "9") = Err (BcryptCostTooLow 9) /\
  exists c : Config,
    ReadEnv url.Parse generated_key (env_with_cost "10") = Ok c /\ BcryptCost c = 10.
Proof.
  split.
  - apply ReadEnv_panics. lazy. reflexivity.
  - eexists. split; [lazy; reflexivity|reflexivity].
Qed.

End LoaderRuns.

(** * The life of an account row *)

Section AccountLifecycle.
Import models postgres.

Ltac refute_call :=
  match goal with
  | H : forall i, ?c <> _ |- _ => exfalso; eapply H; reflexivity
  | H : forall i p, ?c <> _ |- _ => exfalso; eapply H; reflexivity
  end.

Ltac row_kept a Hk :=
  exists a; split; [exact Hk|]; repeat split; auto.

Ltac row_updated a Hk :=
  rewrite (update_rows_nth _ _ _ _ _ Hk);
  destruct (ID a =? _);
  (eexists; split; [reflexivity|]; simpl;
   repeat split; intros; try reflexivity; try assumption; try discriminate;
   try refute_call).

(** What a call can do to a row that is already there. *)
Lemma step_row (call : Call) (o : Oracle) (db : DB) (k : nat) (a : Account) :
  nth_error (accounts db) k = Some a ->
  exists a', nth_error (accounts (step call o db)) k = Some a' /\
    ID a' = ID a /\ CreatedAt a' = CreatedAt a /\
    ((forall i, call <> CallArchive i) -> DeletedAt a' = DeletedAt a) /\
    (DeletedAt a <> None -> DeletedAt a' <> None) /\
    ((forall i, call <> CallArchive i) -> (forall i p, call <> CallSetPassword i p) ->
     Password a' = Password a /\ PasswordChangedAt a' = PasswordChangedAt a) /\
    ((forall i, call <> CallArchive i) -> (forall i u, call <> CallUpdateUsername i u) ->
     Username a' = Username a) /\
    ((forall i, call <> CallLock i) -> (forall i, call <> CallUnlock i) ->
     Locked a' = Locked a).
Proof.
  intros Hk. destruct call; simpl; try (row_kept a Hk).
  - unfold Create, insert_account. destruct (conn1 o); [row_kept a Hk|].
    cbn [Username].
    destruct (username_taken u None db); [row_kept a Hk|].
    assert (Hk' : forall x, nth_error (accounts db ++ [x]) k = Some a).
    { intros x. rewrite nth_error_app1; [exact Hk|].
      apply nth_error_Some. congruence. }
    destruct (conn2 o); simpl; (exists a; split; [apply Hk'|]; repeat split; auto).
  - unfold AddOauthAccount, Exec, insert_oauth_account.
    destruct (conn1 o); [row_kept a Hk|]. simpl.
    destruct (List.existsb _ _); row_kept a Hk.
  - unfold Archive, Exec. destruct (conn1 o); [row_kept a Hk|]. simpl.
    destruct (conn2 o); [row_kept a Hk|]. simpl. row_updated a Hk.
  - unfold Lock, Exec. destruct (conn1 o); [row_kept a Hk|]. simpl.
    row_updated a Hk.
  - unfold Unlock, Exec. destruct (conn1 o); [row_kept a Hk|]. simpl.
    row_updated a Hk.
  - unfold RequireNewPassword, Exec. destruct (conn1 o); [row_kept a Hk|]. simpl.
    row_updated a Hk.
  - unfold SetPassword, Exec. destruct (conn1 o); [row_kept a Hk|]. simpl.
    row_updated a Hk.
  - unfold UpdateUsername, Exec, update_username.
    destruct (conn1 o); [row_kept a Hk|].
    destruct (_ && _); [row_kept a Hk|]. simpl. row_updated a Hk.
Qed.

Lemma run_row (calls : list (Call * Oracle)) (db : DB) (k : nat) (a : Account) :
  nth_error (accounts db) k = Some a ->
  exists a', nth_error (accounts (run calls db)) k = Some a' /\
    ID a' = ID a /\ CreatedAt a' = CreatedAt a /\
    (DeletedAt a <> None -> DeletedAt a' <> None).
Proof.
  revert db a. induction calls as [|[call o] calls IH]; simpl; intros db a Hrow.
  - exists a. repeat split; auto.
  - destruct (step_row call o db k a Hrow) as (a1 & H1 & Hid & Hcr & _ & Hdel & _).
    destruct (IH _ _ H1) as (a' & H' & Hid' & Hcr' & Hdel').
    exists a'. split; [exact H'|]. repeat split; try congruence. auto.
Qed.

(** X1. Whatever the callers do, a row of [accounts] stays where it is: no
    sequence of calls removes it, changes its identifier or its creation
    time, or takes an archived account back to the live ones. *)
Theorem run_keeps_rows (calls : list (Call * Oracle)) (db : DB) (k : nat) (a : Account)
    (Hrow : nth_error (accounts db) k = Some a) :
  exists a', nth_error (accounts (run calls db)) k = Some a' /\
    ID a' = ID a /\ CreatedAt a' = CreatedAt a /\
    (DeletedAt a <> None -> DeletedAt a' <> None).
Proof. now apply run_row. Qed.

Lemma run_keeps_rows_witness :
  exists a',
    nth_error (accounts (run [ (CallUnlock 2, mkOracle None None 40 40 "");
                               (CallSetPassword 2 [8], mkOracle None None 41 42 "");
                               (CallUpdateUsername 2 "carol", mkOracle None None 43 43 "") ]
                             db_archived)) 1 = Some a' /\
    ID a' = 2 /\ CreatedAt a' = 12 /\ DeletedAt a' <> None.
Proof.
  destruct (run_keeps_rows
              [ (CallUnlock 2, mkOracle None None 40 40 "");
                (CallSetPassword 2 [8], mkOracle None None 41 42 "");
                (CallUpdateUsername 2 "carol", mkOracle None None 43 43 "") ]
              db_archived 1 carol_archived eq_refl) as (a' & H & Hid & Hcr & Hdel).
  exists a'. repeat split; try assumption. apply Hdel. discriminate.
Defined.

(** X2. [deleted_at] is written by [Archive] alone: after any other call a
    live account is still live and an archived one keeps its stamp. *)
Theorem only_Archive_stamps (call : Call) (o : Oracle) (db : DB) (k : nat) (a : Account)
    (Hrow : nth_error (accounts db) k = Some a)
    (Hcall : forall id, call <> CallArchive id) :
  exists a', nth_error (accounts (step call o db)) k = Some a' /\
             DeletedAt a' = DeletedAt a.
Proof.
  destruct (step_row call o db k a Hrow) as (a' & H & _ & _ & Hdel & _).
  exists a'. auto.
Qed.

Lemma only_Archive_stamps_witness :
  exists a', nth_error (accounts (step (CallSetPassword 1 [8])
                                       (mkOracle None None 41 42 "") db_alice)) 0
             = Some a' /\ DeletedAt a' = None.
Proof.
  refine (only_Archive_stamps (CallSetPassword 1 [8]) (mkOracle None None 41 42 "")
            db_alice 0 alice eq_refl _).
  intros id H. discriminate H.
Defined.

(** X3. The stored credentials change through their own methods only: the
    password (and [password_changed_at]) through [SetPassword] and
    [Archive], the username through [UpdateUsername] and [Archive], the lock
    through [Lock] and [Unlock]. *)
Theorem columns_have_their_writers (call : Call) (o : Oracle) (db : DB) (k : nat)
    (a : Account) (Hrow : nth_error (accounts db) k = Some a) :
  exists a', nth_error (accounts (step call o db)) k = Some a' /\
    ((forall i, call <> CallArchive i) -> (forall i p, call <> CallSetPassword i p) ->
     Password a' = Password a /\ PasswordChangedAt a' = PasswordChangedAt a) /\
    ((forall i, call <> CallArchive i) -> (forall i u, call <> CallUpdateUsername i u) ->
     Username a' = Username a) /\
    ((forall i, call <> CallLock i) -> (forall i, call <> CallUnlock i) ->
     Locked a' = Locked a).
Proof.
  destruct (step_row call o db k a Hrow) as (a' & H & _ & _ & _ & _ & Hp & Hu & Hl).
  exists a'. auto.
Qed.

Lemma columns_have_their_writers_witness :
  exists a', nth_error (accounts (step (CallLock 1) (mkOracle None None 50 50 "")
                                       db_alice)) 0 = Some a' /\
             Password a' = [1; 2; 3] /\ Username a' = "alice".
Proof.
  destruct (columns_have_their_writers (CallLock 1) (mkOracle None None 50 50 "")
              db_alice 0 alice eq_refl) as (a' & H & Hp & Hu & _).
  exists a'. split; [exact H|]. split.
  - apply Hp; intros; discriminate.
  - apply Hu; intros; discriminate.
Defined.

(** ** Round trips *)

Lemma select_by_username_free (u : string) (db : DB) :
  ~ bears_live u db -> select_by_username u db = [].
Proof.
  unfold select_by_username, bears_live. intros Hfree.
  induction (accounts db) as [|a rows IH]; simpl; [reflexivity|].
  destruct (String.eqb (Username a) u && live a) eqn:E.
  - exfalso. apply Hfree. exists a. apply andb_true_iff in E as [Hu Hl].
    apply String.eqb_eq in Hu. unfold live in Hl.
    destruct (DeletedAt a) eqn:Hd; [discriminate|]. simpl. auto.
  - apply IH. intros (b & Hb & Hb'). apply Hfree. exists b. simpl. auto.
Qed.

(** X4. A successful [Create] returns the account it stored: the username
    and password given, unlocked, no password change required, the three
    timestamps at [now], not archived, under the next identifier; and both
    [Find] by that identifier and [FindByUsername] by that username hand the
    same record back. *)
Theorem Create_then_find (db : DB) (u : string) (p : bytes) (now : Time)
    (Hwf : wf db) (Hfree : ~ bears_live u db) :
  exists db' a,
    Create None None now u p db = (db', Ok a) /\
    a = mkAccount (accounts_id_seq db + 1) u p false false now now now None /\
    Find None (ID a) db' = Ok (Some a) /\
    FindByUsername None u db' = Ok (Some a) /\
    oauth_accounts db' = oauth_accounts db.
Proof.
  rewrite (Create_on_free_username _ _ _ _ Hfree).
  eexists _, _. split; [reflexivity|]. split; [reflexivity|].
  set (a := mkAccount (accounts_id_seq db + 1) u p false false now now now None).
  set (db' := mkDB (accounts db ++ [a]) (oauth_accounts db) (accounts_id_seq db + 1)).
  assert (Hwf' : wf db') by exact (wf_insert a db Hwf).
  assert (Hin : In a (accounts db')) by (simpl; apply in_or_app; right; now left).
  split; [|split; [|reflexivity]].
  - unfold Find. change (accounts_id_seq db + 1) with (ID a).
    rewrite (select_by_id_pk db' a (proj1 Hwf') Hin). reflexivity.
  - unfold FindByUsername, select_by_username. simpl accounts.
    rewrite List.filter_app.
    fold (select_by_username u db). rewrite (select_by_username_free u db Hfree).
    simpl. rewrite String.eqb_refl. reflexivity.
Qed.

Lemma Create_then_find_witness :
  exists db' a,
    Create None None 60 "bob" [9] db_alice = (db', Ok a) /\
    a = mkAccount 2 "bob" [9] false false 60 60 60 None /\
    Find None (ID a) db' = Ok (Some a) /\
    FindByUsername None "bob" db' = Ok (Some a) /\
    oauth_accounts db' = oauth_accounts db_alice.
Proof.
  apply (Create_then_find db_alice "bob" [9] 60).
  - split; simpl; repeat constructor; simpl; [tauto|lia].
  - intros (a & [<-|[]] & Hu & _). discriminate Hu.
Defined.

Lemma oauth_key_spec (p pid : string) (oa : OauthAccount) :
  oauth_key p pid oa = true <-> Provider oa = p /\ ProviderID oa = pid.
Proof.
  unfold oauth_key. rewrite andb_true_iff, !String.eqb_eq. tauto.
Qed.

(** X5. A link added to an existing account is found again: when no link
    with the pair ([provider], [providerID]) is stored yet,
    [AddOauthAccount] succeeds, [FindByOauthAccount] on the pair returns that
    account as stored, and [GetOauthAccounts] returns, in some order, the new
    link together with the links the account had (each as often as before). *)
Theorem AddOauthAccount_then_find (db : DB) (a : Account) (now : Time)
    (provider providerID accessToken : string)
    (Hin : In a (accounts db))
    (Hpk : List.NoDup (List.map ID (accounts db)))
    (Hnew : forall oa, In oa (oauth_accounts db) ->
                       ~ (Provider oa = provider /\ ProviderID oa = providerID)) :
  exists db',
    AddOauthAccount None now (ID a) provider providerID accessToken db = (db', None) /\
    accounts db' = accounts db /\
    FindByOauthAccount None provider providerID db' = Ok (Some a) /\
    snd (GetOauthAccounts None (ID a) db') = None /\
    Permutation
      (fst (GetOauthAccounts None (ID a) db'))
      (mkOauthAccount (ID a) provider providerID accessToken now now
         :: fst (GetOauthAccounts None (ID a) db)).
Proof.
  set (oa := mkOauthAccount (ID a) provider providerID accessToken now now).
  set (db' := mkDB (accounts db) (oauth_accounts db ++ [oa]) (accounts_id_seq db)).
  assert (E : AddOauthAccount None now (ID a) provider providerID accessToken db
              = (db', None)).
  { unfold AddOauthAccount, Exec, insert_oauth_account. simpl AccountID.
    assert (Hex : List.existsb (fun x => ID x =? ID a) (accounts db) = true).
    { apply existsb_exists. exists a. split; [exact Hin|apply Z.eqb_refl]. }
    rewrite Hex. reflexivity. }
  exists db'. split; [exact E|]. split; [reflexivity|]. split; [|split].
  - assert (Hjoin : In a (select_by_oauth provider providerID db')).
    { apply in_select_by_oauth. split; [exact Hin|]. exists oa.
      split; [simpl; apply in_or_app; right; now left|]. now repeat split. }
    unfold FindByOauthAccount.
    destruct (select_by_oauth provider providerID db') as [|b rows] eqn:Hsel;
      [contradiction|].
    assert (Hb : In b (select_by_oauth provider providerID db'))
      by (rewrite Hsel; now left).
    apply in_select_by_oauth in Hb as (Hb & oa' & Hoa' & Hid & Hp & Hpid).
    simpl in Hoa'. apply in_app_or in Hoa' as [Hold|[<-|[]]].
    + exfalso. apply (Hnew oa' Hold). now split.
    + simpl in Hid. rewrite (pk_injective (accounts db) a b Hpk Hin Hb Hid).
      reflexivity.
  - reflexivity.
  - unfold GetOauthAccounts, Select, select_oauth_accounts. simpl.
    rewrite List.filter_app. simpl. rewrite Z.eqb_refl.
    apply Permutation_sym, Permutation_cons_append.
Qed.

Lemma AddOauthAccount_then_find_witness :
  exists db',
    AddOauthAccount None 70 1 "github" "gh-1" "tok" db_alice = (db', None) /\
    accounts db' = accounts db_alice /\
    FindByOauthAccount None "github" "gh-1" db' = Ok (Some alice) /\
    snd (GetOauthAccounts None 1 db') = None /\
    Permutation
      (fst (GetOauthAccounts None 1 db'))
      [mkOauthAccount 1 "github" "gh-1" "tok" 70 70; alice_google].
Proof.
  apply (AddOauthAccount_then_find db_alice alice 70 "github" "gh-1" "tok").
  - simpl. tauto.
  - simpl. repeat constructor. simpl. tauto.
  - simpl. intros oa [<-|[]] [H _]. discriminate H.
Defined.

(** X6. Once the DELETE of [Archive] has gone through, no link leads to the
    account any more, whether or not the UPDATE that follows succeeds:
    [FindByOauthAccount] returns no account with that identifier, for any
    pair, and [GetOauthAccounts] lists nothing for it. *)
Theorem Archive_cuts_links (db : DB) (id : Z) (c2 : Conn) (now : Time)
    (md5_random : string) :
  let db' := fst (Archive None c2 now md5_random id db) in
  GetOauthAccounts None id db' = ([], None) /\
  forall (c : Conn) (provider providerID : string) (b : Account),
    FindByOauthAccount c provider providerID db' = Ok (Some b) -> ID b <> id.
Proof.
  assert (Hlinks : oauth_accounts (fst (Archive None c2 now md5_random id db)) =
                   List.filter (fun oa => negb (AccountID oa =? id)) (oauth_accounts db)).
  { unfold Archive, Exec. simpl. destruct c2; reflexivity. }
  cbv zeta. split.
  - unfold GetOauthAccounts, Select, select_oauth_accounts. rewrite Hlinks.
    now rewrite delete_links_none.
  - intros c provider providerID b. unfold FindByOauthAccount, Get.
    destruct c as [[]|]; try discriminate.
    destruct (select_by_oauth _ _ _) as [|r rows] eqn:Hsel; [discriminate|].
    intros [= <-].
    assert (Hr : In r (select_by_oauth provider providerID
                         (fst (Archive None c2 now md5_random id db))))
      by (rewrite Hsel; now left).
    apply in_select_by_oauth in Hr as (_ & oa & Hoa & Hid & _).
    rewrite Hlinks in Hoa. apply filter_In in Hoa as [_ Hne].
    rewrite <- Hid. intros E. rewrite E, Z.eqb_refl in Hne. discriminate.
Qed.

Lemma Archive_cuts_links_witness :
  FindByOauthAccount None "google" "g-1" db_alice = Ok (Some alice) /\
  FindByOauthAccount None "google" "g-1"
    (fst (Archive None (Some StorageUnavailable) 20 "0f3a" 1 db_alice)) = Ok None /\
  GetOauthAccounts None 1 (fst (Archive None None 20 "0f3a" 1 db_alice)) = ([], None).
Proof.
  split; [reflexivity|]. split; [reflexivity|].
  exact (proj1 (Archive_cuts_links db_alice 1 None 20 "0f3a")).
Defined.

(** X7. [Archive] does not look at [deleted_at]: archiving an archived
    account again replaces the random username and the stamp by the new
    ones; the lock, the password requirement and the other timestamps,
    [updated_at] included, are those the account had before the first
    archival. *)
Theorem Archive_again (db : DB) (k : nat) (a : Account)
    (now1 now2 : Time) (r1 r2 : string)
    (Hrow : nth_error (accounts db) k = Some a) :
  let db1 := fst (Archive None None now1 r1 (ID a) db) in
  let db2 := fst (Archive None None now2 r2 (ID a) db1) in
  snd (Archive None None now2 r2 (ID a) db1) = None /\
  nth_error (accounts db2) k =
    Some (mkAccount (ID a) ("@" ++ r2)%string [] (Locked a)
            (models.RequireNewPassword a) (PasswordChangedAt a) (CreatedAt a)
            (UpdatedAt a) (Some now2)).
Proof.
  cbv zeta. split; [reflexivity|].
  unfold Archive, Exec. simpl.
  erewrite update_rows_nth; [|erewrite update_rows_nth; [reflexivity|exact Hrow]].
  rewrite Z.eqb_refl. simpl. rewrite Z.eqb_refl. reflexivity.
Qed.

Lemma Archive_again_witness :
  nth_error (accounts (fst (Archive None None 21 "77aa" 1
                              (fst (Archive None None 20 "0f3a" 1 db_alice))))) 0 =
    Some (mkAccount 1 "@77aa" [] false true 10 10 10 (Some 21)).
Proof.
  exact (proj2 (Archive_again db_alice 0 alice 20 21 "0f3a" "77aa" eq_refl)).
Defined.

(** ** "Not found" *)

Lemma filter_nil_iff {A} (f : A -> bool) (l : list A) :
  List.filter f l = [] <-> Forall (fun x => f x = false) l.
Proof.
  induction l as [|x l IH]; simpl; [split; constructor|].
  destruct (f x) eqn:E; split.
  - discriminate.
  - intros H. inversion H; congruence.
  - intros H. constructor; [exact E|now apply IH].
  - intros H. inversion H. now apply IH.
Qed.

(** X8. The lookups answer "not found" (nil, nil) exactly when nothing
    matches: [Find] when no row has the identifier, [FindByUsername] when no
    live account bears the username, [FindByOauthAccount] when no stored link
    with the pair references a stored account. *)
Theorem not_found_iff_no_match (db : DB) :
  (forall id, Find None id db = Ok None <-> Forall (fun a => ID a <> id) (accounts db)) /\
  (forall u, FindByUsername None u db = Ok None <-> ~ bears_live u db) /\
  (forall provider providerID,
      FindByOauthAccount None provider providerID db = Ok None <->
      ~ exists a oa, In a (accounts db) /\ In oa (oauth_accounts db) /\
                     AccountID oa = ID a /\ Provider oa = provider /\
                     ProviderID oa = providerID).
Proof.
  split; [|split].
  - intros id. unfold Find, Get.
    destruct (select_by_id id db) as [|r rows] eqn:E.
    + split; [intros _|reflexivity]. unfold select_by_id in E.
      apply filter_nil_iff in E. eapply List.Forall_impl; [|exact E].
      simpl. intros a Ha. now apply Z.eqb_neq.
    + split; [discriminate|]. intros H. exfalso.
      assert (Hr : In r (select_by_id id db)) by (rewrite E; now left).
      unfold select_by_id in Hr. apply filter_In in Hr as [Hr Hid].
      rewrite List.Forall_forall in H. apply (H r Hr). now apply Z.eqb_eq.
  - intros u. unfold FindByUsername, Get.
    destruct (select_by_username u db) as [|r rows] eqn:E.
    + split; [intros _|reflexivity]. intros (a & Ha & Hu & Hd).
      unfold select_by_username in E. apply filter_nil_iff in E.
      rewrite List.Forall_forall in E. specialize (E a Ha). simpl in E.
      unfold live in E. now rewrite Hu, Hd, String.eqb_refl in E.
    + split; [discriminate|]. intros H.
      now rewrite (select_by_username_free u db H) in E.
  - intros provider providerID. unfold FindByOauthAccount, Get.
    destruct (select_by_oauth provider providerID db) as [|r rows] eqn:E.
    + split; [intros _|reflexivity]. intros (a & oa & Ha & Hoa & H).
      assert (Hin : In a (select_by_oauth provider providerID db)).
      { apply in_select_by_oauth. split; [exact Ha|]. now exists oa. }
      now rewrite E in Hin.
    + split; [discriminate|]. intros H. exfalso. apply H.
      assert (Hr : In r (select_by_oauth provider providerID db))
        by (rewrite E; now left).
      apply in_select_by_oauth in Hr as (Hr & oa & Hoa & Hrest).
      now exists r, oa.
Qed.

Lemma not_found_iff_no_match_witness :
  Find None 7 db_archived = Ok None /\
  FindByUsername None "@9c1e" db_archived = Ok None.
Proof.
  split.
  - apply (proj1 (not_found_iff_no_match db_archived) 7).
    simpl. repeat constructor; simpl; lia.
  - apply (proj1 (proj2 (not_found_iff_no_match db_archived)) "@9c1e").
    intros (a & [<-|[<-|[]]] & Hu & Hd); discriminate.
Defined.

(** ** Locks, and archived accounts in the long run *)

(** X15. [Lock] and [Unlock] write the lock and [updated_at] of the rows
    with the identifier, archived or not, and nothing else: after a [Lock]
    the account is locked, after the [Unlock] that follows it is the account
    it was, unlocked and with [updated_at] at the time of the [Unlock];
    rows with another identifier are untouched throughout. *)
Theorem Lock_then_Unlock (db : DB) (k : nat) (a : Account) (now1 now2 : Time)
    (Hrow : nth_error (accounts db) k = Some a) :
  let db1 := fst (Lock None now1 (ID a) db) in
  let db2 := fst (Unlock None now2 (ID a) db1) in
  snd (Lock None now1 (ID a) db) = None /\
  snd (Unlock None now2 (ID a) db1) = None /\
  nth_error (accounts db1) k =
    Some (mkAccount (ID a) (Username a) (Password a) true
            (models.RequireNewPassword a) (PasswordChangedAt a) (CreatedAt a)
            now1 (DeletedAt a)) /\
  nth_error (accounts db2) k =
    Some (mkAccount (ID a) (Username a) (Password a) false
            (models.RequireNewPassword a) (PasswordChangedAt a) (CreatedAt a)
            now2 (DeletedAt a)) /\
  oauth_accounts db2 = oauth_accounts db /\
  (forall j b, nth_error (accounts db) j = Some b -> ID b <> ID a ->
               nth_error (accounts db1) j = Some b /\
               nth_error (accounts db2) j = Some b).
Proof.
  cbv zeta. unfold Lock, Unlock, Exec. simpl.
  split; [reflexivity|]. split; [reflexivity|]. split.
  - rewrite (update_rows_nth _ _ _ _ _ Hrow), Z.eqb_refl. reflexivity.
  - split.
    + erewrite update_rows_nth;
        [|rewrite (update_rows_nth _ _ _ _ _ Hrow), Z.eqb_refl; reflexivity].
      simpl. rewrite Z.eqb_refl. reflexivity.
    + split; [reflexivity|]. intros j b Hj Hne.
      apply Z.eqb_neq in Hne.
      assert (H1 : nth_error
                (update_rows (fun x => set_updated_at now1 (set_locked true x))
                             (ID a) (accounts db)) j = Some b)
        by (rewrite (update_rows_nth _ _ _ _ _ Hj), Hne; reflexivity).
      split; [exact H1|].
      rewrite (update_rows_nth _ _ _ _ _ H1), Hne. reflexivity.
Qed.

Lemma Lock_then_Unlock_witness :
  nth_error (accounts (fst (Lock None 80 2 db_archived))) 1 =
    Some (mkAccount 2 "@9c1e" [] true true 12 12 80 (Some 30)) /\
  nth_error (accounts (fst (Unlock None 81 2 (fst (Lock None 80 2 db_archived))))) 1 =
    Some (mkAccount 2 "@9c1e" [] false true 12 12 81 (Some 30)) /\
  nth_error (accounts (fst (Unlock None 81 2 (fst (Lock None 80 2 db_archived))))) 0 =
    Some alice.
Proof.
  destruct (Lock_then_Unlock db_archived 1 carol_archived 80 81 eq_refl)
    as (_ & _ & H1 & H2 & _ & Hothers).
  split; [exact H1|]. split; [exact H2|].
  refine (proj2 (Hothers 0%nat alice eq_refl _)). discriminate.
Defined.

(** X16. An archived account stays out of reach by name: in a store where
    [id] is a key, whatever calls follow (a [SetPassword], an [Unlock], an
    [UpdateUsername] on the archived account among them), [FindByUsername]
    returns it under no username, and [Find] returns it with an empty
    username and its [deleted_at] set. *)
Theorem archived_stays_hidden (calls : list (Call * Oracle)) (db : DB) (k : nat)
    (a : Account) (Hwf : wf db)
    (Hrow : nth_error (accounts db) k = Some a) (Hdel : DeletedAt a <> None) :
  (forall (c : Conn) (u : string) (b : Account),
      FindByUsername c u (run calls db) = Ok (Some b) -> ID b <> ID a) /\
  (exists b, Find None (ID a) (run calls db) = Ok (Some b) /\
             ID b = ID a /\ Username b = "" /\ DeletedAt b <> None).
Proof.
  destruct (run_row calls db k a Hrow) as (a' & Hrow' & Hid & _ & Hdel').
  specialize (Hdel' Hdel).
  pose proof (proj1 (run_wf calls db Hwf)) as Hpk.
  pose proof (nth_error_In _ _ Hrow') as Hin. split.
  - intros c u b Hfind Hsame. apply FindByUsername_live in Hfind as (Hb & _ & Hlive).
    assert (b = a') as ->.
    { apply (pk_injective (accounts (run calls db))); auto. congruence. }
    contradiction.
  - exists (set_username "" a'). rewrite <- Hid.
    split; [now apply Find_archived_row|]. now repeat split.
Qed.

Lemma archived_stays_hidden_witness :
  let db := run [ (CallUpdateUsername 2 "carol", mkOracle None None 90 90 "");
                  (CallSetPassword 2 [8], mkOracle None None 91 92 "") ] db_archived in
  (forall b, FindByUsername None "carol" db = Ok (Some b) -> ID b <> 2) /\
  exists b, Find None 2 db = Ok (Some b) /\ Username b = "".
Proof.
  cbv zeta.
  destruct (archived_stays_hidden
              [ (CallUpdateUsername 2 "carol", mkOracle None None 90 90 "");
                (CallSetPassword 2 [8], mkOracle None None 91 92 "") ]
              db_archived 1 carol_archived) as [Hname (b & Hfind & _ & Hblank & _)].
  - split; simpl; repeat constructor; simpl; try lia; intuition discriminate.
  - reflexivity.
  - discriminate.
  - split; [intros b'; apply Hname|]. exists b. now split.
Defined.

End AccountLifecycle.

(** * What a loaded configuration holds *)

Section LoadedConfiguration.
Import config.

Context {PrivateKey : Type}.
Variable url_Parse : string -> Result string url.URL.
Variable rsa_GenerateKey : Z -> Result Error PrivateKey.

#[local] Opaque config.derive.

Tactic Notation "need_env" hyp(H) constr(name) ident(x) :=
  match type of H with
  | context [LookupEnv ?env name] =>
      destruct (LookupEnv env name) as [x|] eqn:?; cbv beta iota zeta in H;
      [|discriminate H]
  end.

Tactic Notation "need_int" hyp(H) constr(name) ident(n) :=
  match type of H with
  | context [lookupInt ?env name ?def] =>
      let e := fresh "e" in
      destruct (lookupInt env name def) as [n [e|]] eqn:?;
      cbv beta iota zeta in H; [discriminate H|]
  end.

(** A run of [ReadEnv] that returns, taken apart. *)
Lemma ReadEnv_Ok_inv (env : Env) (c : Config) :
  ReadEnv url_Parse rsa_GenerateKey env = Ok c ->
  exists (app authn secret dburl redis : string) (cost score rttl attl : Z)
         (key : PrivateKey),
    LookupEnv env "APP_DOMAINS" = Some app /\
    LookupEnv env "AUTHN_URL" = Some authn /\
    LookupEnv env "SECRET_KEY_BASE" = Some secret /\
    LookupEnv env "DATABASE_URL" = Some dburl /\
    LookupEnv env "REDIS_URL" = Some redis /\
    lookupInt env "BCRYPT_COST" 11 = (cost, None) /\ 10 <= cost /\
    lookupInt env "PASSWORD_POLICY_SCORE" 2 = (score, None) /\
    lookupInt env "REFRESH_TOKEN_TTL" 31557600 = (rttl, None) /\
    lookupInt env "ACCESS_TOKEN_TTL" 3600 = (attl, None) /\
    rsa_GenerateKey 2056 = Ok key /\
    c = mkConfig
          (strings.Split "," app) cost
          (fst (lookupBool env "USERNAME_IS_EMAIL" false)) 3
          (match LookupEnv env "EMAIL_USERNAME_DOMAINS" with
           | Some d => strings.Split "," d
           | None => []
           end)
          score (int64 (rttl * Second))
          (match url_Parse redis with Ok u => Some u | Err _ => None end)
          (match url_Parse dburl with Ok u => Some u | Err _ => None end)
          (derive (bytes_of_string secret) "session-key-salt")
          (Some key)
          (match url_Parse authn with Ok u => Some u | Err _ => None end)
          (match url_Parse authn with
           | Ok u => String.eqb (url.Scheme u) "https"
           | Err _ => false
           end)
          (match url_Parse authn with Ok u => url.Path u | Err _ => EmptyString end)
          (int64 (attl * Second)).
Proof.
  intros H.
  unfold ReadEnv, configure, configurers, configure_from,
    configure_APP_DOMAINS, configure_AUTHN_URL, configure_SECRET_KEY_BASE,
    configure_BCRYPT_COST, configure_PASSWORD_POLICY_SCORE, configure_DATABASE_URL,
    configure_REDIS_URL, configure_USERNAME_IS_EMAIL,
    configure_EMAIL_USERNAME_DOMAINS, configure_REFRESH_TOKEN_TTL,
    configure_ACCESS_TOKEN_TTL, configure_UsernameMinLength, requireEnv in H.
  need_env H "APP_DOMAINS" app. need_env H "AUTHN_URL" authn.
  destruct (url_Parse authn) eqn:Hauthn; cbv beta iota zeta in H;
    (need_env H "SECRET_KEY_BASE" secret; need_int H "BCRYPT_COST" cost;
     destruct (cost <? 10) eqn:Hcost; cbv beta iota zeta in H; [discriminate H|];
     apply Z.ltb_ge in Hcost;
     need_int H "PASSWORD_POLICY_SCORE" score; need_env H "DATABASE_URL" dburl;
     destruct (url_Parse dburl) eqn:Hdb; cbv beta iota zeta in H;
       (need_env H "REDIS_URL" redis;
        destruct (url_Parse redis) eqn:Hredis; cbv beta iota zeta in H;
          (destruct (lookupBool env "USERNAME_IS_EMAIL" false) as [b [eb|]] eqn:Hbool;
           cbv beta iota zeta in H; [discriminate H|];
           destruct (LookupEnv env "EMAIL_USERNAME_DOMAINS") eqn:Hdom;
           cbv beta iota zeta in H;
             (need_int H "REFRESH_TOKEN_TTL" rttl; need_int H "ACCESS_TOKEN_TTL" attl;
              destruct (rsa_GenerateKey 2056) as [key|] eqn:Hkey; [|discriminate H];
              injection H as <-;
              exists app, authn, secret, dburl, redis, cost, score, rttl, attl, key;
              rewrite ?Hauthn, ?Hdb, ?Hredis;
              repeat (split; [reflexivity || assumption || lia|]); reflexivity)))).
Qed.

Lemma lookupBool_ok (env : Env) (name : string) (def : bool) :
  snd (lookupBool env name def) = None.
Proof. unfold lookupBool. destruct (LookupEnv env name); reflexivity. Qed.

(** The converse: what makes [ReadEnv] return, and what it returns then. *)
Lemma ReadEnv_Ok_intro (env : Env) (app authn secret dburl redis : string)
      (cost score rttl attl : Z) (key : PrivateKey) :
  LookupEnv env "APP_DOMAINS" = Some app ->
  LookupEnv env "AUTHN_URL" = Some authn ->
  LookupEnv env "SECRET_KEY_BASE" = Some secret ->
  LookupEnv env "DATABASE_URL" = Some dburl ->
  LookupEnv env "REDIS_URL" = Some redis ->
  lookupInt env "BCRYPT_COST" 11 = (cost, None) -> 10 <= cost ->
  lookupInt env "PASSWORD_POLICY_SCORE" 2 = (score, None) ->
  lookupInt env "REFRESH_TOKEN_TTL" 31557600 = (rttl, None) ->
  lookupInt env "ACCESS_TOKEN_TTL" 3600 = (attl, None) ->
  rsa_GenerateKey 2056 = Ok key ->
  exists c : Config, ReadEnv url_Parse rsa_GenerateKey env = Ok c.
Proof.
  intros Happ Hauthn Hsecret Hdb Hredis Hcost Hfloor Hscore Hrttl Hattl Hkey.
  apply Z.ltb_ge in Hfloor.
  pose proof (lookupBool_ok env "USERNAME_IS_EMAIL" false) as Hbool.
  unfold ReadEnv, configure, configurers, configure_from,
    configure_APP_DOMAINS, configure_AUTHN_URL, configure_SECRET_KEY_BASE,
    configure_BCRYPT_COST, configure_PASSWORD_POLICY_SCORE, configure_DATABASE_URL,
    configure_REDIS_URL, configure_USERNAME_IS_EMAIL,
    configure_EMAIL_USERNAME_DOMAINS, configure_REFRESH_TOKEN_TTL,
    configure_ACCESS_TOKEN_TTL, configure_UsernameMinLength, requireEnv.
  rewrite Happ, Hauthn, Hsecret, Hdb, Hredis, Hcost, Hfloor, Hscore, Hrttl, Hattl, Hkey.
  destruct (lookupBool env "USERNAME_IS_EMAIL" false) as [b eb].
  simpl in Hbool. subst eb.
  destruct (url_Parse authn), (url_Parse dburl), (url_Parse redis),
    (LookupEnv env "EMAIL_USERNAME_DOMAINS"); eexists; reflexivity.
Qed.

Lemma int64_exact (x : Z) : int64 x = x <-> - 2 ^ 63 <= x < 2 ^ 63.
Proof.
  unfold int64.
  change (2 ^ 63) with 9223372036854775808.
  change (2 ^ 64) with 18446744073709551616.
  split.
  - intros H.
    pose proof (Z.mod_pos_bound (x + 9223372036854775808) 18446744073709551616).
    lia.
  - intros H. rewrite Z.mod_small; lia.
Qed.

Lemma seconds_exact (ttl : Z) :
  int64 (ttl * Second) = ttl * Second <-> - 9223372036 <= ttl <= 9223372036.
Proof.
  rewrite int64_exact. unfold Second.
  change (2 ^ 63) with 9223372036854775808. lia.
Qed.

(** X9. [ReadEnv] returns a configuration exactly when the five required
    names are set, BCRYPT_COST is absent or an integer no lower than 10, the
    three other integer settings are absent or integers, and key generation
    succeeds. Whether the three URLs parse plays no part. *)
Theorem ReadEnv_returns_iff (env : Env) :
  (exists c : Config, ReadEnv url_Parse rsa_GenerateKey env = Ok c) <->
  (LookupEnv env "APP_DOMAINS" <> None /\
   LookupEnv env "AUTHN_URL" <> None /\
   LookupEnv env "SECRET_KEY_BASE" <> None /\
   LookupEnv env "DATABASE_URL" <> None /\
   LookupEnv env "REDIS_URL" <> None /\
   snd (lookupInt env "BCRYPT_COST" 11) = None /\
   10 <= fst (lookupInt env "BCRYPT_COST" 11) /\
   snd (lookupInt env "PASSWORD_POLICY_SCORE" 2) = None /\
   snd (lookupInt env "REFRESH_TOKEN_TTL" 31557600) = None /\
   snd (lookupInt env "ACCESS_TOKEN_TTL" 3600) = None /\
   exists key : PrivateKey, rsa_GenerateKey 2056 = Ok key).
Proof.
  split.
  - intros [c H]. apply ReadEnv_Ok_inv in H
      as (app & authn & secret & dburl & redis & cost & score & rttl & attl & key
          & Happ & Hauthn & Hsecret & Hdb & Hredis & Hcost & Hfloor & Hscore
          & Hrttl & Hattl & Hkey & _).
    rewrite Happ, Hauthn, Hsecret, Hdb, Hredis, Hcost, Hscore, Hrttl, Hattl.
    repeat (split; [discriminate || reflexivity || exact Hfloor|]). now exists key.
  - intros (Happ & Hauthn & Hsecret & Hdb & Hredis & Hcost & Hfloor & Hscore
            & Hrttl & Hattl & key & Hkey).
    destruct (LookupEnv env "APP_DOMAINS") as [app|] eqn:Eapp; [|contradiction].
    destruct (LookupEnv env "AUTHN_URL") as [authn|] eqn:Eauthn; [|contradiction].
    destruct (LookupEnv env "SECRET_KEY_BASE") as [secret|] eqn:Esecret;
      [|contradiction].
    destruct (LookupEnv env "DATABASE_URL") as [dburl|] eqn:Edb; [|contradiction].
    destruct (LookupEnv env "REDIS_URL") as [redis|] eqn:Eredis; [|contradiction].
    destruct (lookupInt env "BCRYPT_COST" 11) as [cost e1] eqn:E1.
    destruct (lookupInt env "PASSWORD_POLICY_SCORE" 2) as [score e2] eqn:E2.
    destruct (lookupInt env "REFRESH_TOKEN_TTL" 31557600) as [rttl e3] eqn:E3.
    destruct (lookupInt env "ACCESS_TOKEN_TTL" 3600) as [attl e4] eqn:E4.
    simpl in Hcost, Hfloor, Hscore, Hrttl, Hattl. subst e1 e2 e3 e4.
    eapply ReadEnv_Ok_intro; eassumption.
Qed.

(** X10. Every configuration [ReadEnv] returns has a bcrypt cost of at least
    10, a minimal username length of 3, the identity key that key generation
    produced for 2056 bits, and as session key the 256 bytes derived from
    SECRET_KEY_BASE under the salt ["session-key-salt"]. *)
Theorem loaded_security_settings (env : Env) (c : Config)
    (Hload : ReadEnv url_Parse rsa_GenerateKey env = Ok c) :
  10 <= BcryptCost c /\
  UsernameMinLength c = 3 /\
  (exists key, rsa_GenerateKey 2056 = Ok key /\ IdentitySigningKey c = Some key) /\
  (exists secret, LookupEnv env "SECRET_KEY_BASE" = Some secret /\
     SessionSigningKey c = derive (bytes_of_string secret) "session-key-salt") /\
  length (SessionSigningKey c) = 256%nat.
Proof.
  apply ReadEnv_Ok_inv in Hload
    as (app & authn & secret & dburl & redis & cost & score & rttl & attl & key
        & _ & _ & Hsecret & _ & _ & _ & Hfloor & _ & _ & _ & Hkey & ->).
  cbn [BcryptCost UsernameMinLength IdentitySigningKey SessionSigningKey].
  split; [exact Hfloor|]. split; [reflexivity|].
  split; [now exists key|]. split; [now exists secret|].
  apply derive_shape.
Qed.

(** X11. In a configuration [ReadEnv] returns, each of [AuthNURL],
    [DatabaseURL] and [RedisURL] is the parsed value of its setting, or nil
    when the value does not parse; [MountedPath] and [ForceSSL] are the path
    of the AUTHN_URL and whether its scheme is ["https"], or the empty path
    and false when it does not parse. *)
Theorem loaded_URLs (env : Env) (c : Config)
    (Hload : ReadEnv url_Parse rsa_GenerateKey env = Ok c) :
  exists authn dburl redis : string,
    LookupEnv env "AUTHN_URL" = Some authn /\
    LookupEnv env "DATABASE_URL" = Some dburl /\
    LookupEnv env "REDIS_URL" = Some redis /\
    AuthNURL c = match url_Parse authn with Ok u => Some u | Err _ => None end /\
    MountedPath c =
      match url_Parse authn with Ok u => url.Path u | Err _ => EmptyString end /\
    ForceSSL c =
      match url_Parse authn with
      | Ok u => String.eqb (url.Scheme u) "https"
      | Err _ => false
      end /\
    DatabaseURL c = match url_Parse dburl with Ok u => Some u | Err _ => None end /\
    RedisURL c = match url_Parse redis with Ok u => Some u | Err _ => None end.
Proof.
  apply ReadEnv_Ok_inv in Hload
    as (app & authn & secret & dburl & redis & cost & score & rttl & attl & key
        & _ & Hauthn & _ & Hdb & Hredis & _ & _ & _ & _ & _ & _ & ->).
  exists authn, dburl, redis. repeat split; assumption.
Qed.

(** X12. In a configuration [ReadEnv] returns, [ApplicationDomains] is the
    one-element list [[","]] whatever APP_DOMAINS is set to, except that the
    lone comma gives two empty strings; the same goes for [UsernameDomains]
    when EMAIL_USERNAME_DOMAINS is set, and it is empty when the name is
    absent. *)
Theorem loaded_domain_lists (env : Env) (c : Config)
    (Hload : ReadEnv url_Parse rsa_GenerateKey env = Ok c) :
  (exists app, LookupEnv env "APP_DOMAINS" = Some app /\
     ApplicationDomains c =
       if String.eqb app "," then [EmptyString; EmptyString] else [","%string]) /\
  UsernameDomains c =
    match LookupEnv env "EMAIL_USERNAME_DOMAINS" with
    | None => []
    | Some d => if String.eqb d "," then [EmptyString; EmptyString] else [","%string]
    end.
Proof.
  assert (Hsplit : forall v, strings.Split "," v =
            if String.eqb v "," then [EmptyString; EmptyString] else [","%string]).
  { intros v. destruct (String.eqb_spec v ",") as [->|Hv]; [reflexivity|].
    now apply Split_of_comma. }
  apply ReadEnv_Ok_inv in Hload
    as (app & authn & secret & dburl & redis & cost & score & rttl & attl & key
        & Happ & _ & _ & _ & _ & _ & _ & _ & _ & _ & _ & ->).
  cbn [ApplicationDomains UsernameDomains]. split.
  - exists app. split; [exact Happ|apply Hsplit].
  - destruct (LookupEnv env "EMAIL_USERNAME_DOMAINS"); [apply Hsplit|reflexivity].
Qed.

(** X13. In a configuration [ReadEnv] returns, each token lifetime is the
    number of seconds of its setting times a second, computed in 64 bits: it
    is that many seconds exactly when the setting lies within
    9223372036 seconds either way, and wraps around otherwise. Absent
    settings give 31557600 seconds (refresh) and 3600 seconds (access). *)
Theorem loaded_TTLs (env : Env) (c : Config)
    (Hload : ReadEnv url_Parse rsa_GenerateKey env = Ok c) :
  exists rttl attl : Z,
    lookupInt env "REFRESH_TOKEN_TTL" 31557600 = (rttl, None) /\
    lookupInt env "ACCESS_TOKEN_TTL" 3600 = (attl, None) /\
    RefreshTokenTTL c = int64 (rttl * Second) /\
    AccessTokenTTL c = int64 (attl * Second) /\
    (RefreshTokenTTL c = rttl * 1000000000 <-> - 9223372036 <= rttl <= 9223372036) /\
    (AccessTokenTTL c = attl * 1000000000 <-> - 9223372036 <= attl <= 9223372036) /\
    (LookupEnv env "REFRESH_TOKEN_TTL" = None ->
     RefreshTokenTTL c = 31557600000000000) /\
    (LookupEnv env "ACCESS_TOKEN_TTL" = None -> AccessTokenTTL c = 3600000000000).
Proof.
  apply ReadEnv_Ok_inv in Hload
    as (app & authn & secret & dburl & redis & cost & score & rttl & attl & key
        & _ & _ & _ & _ & _ & _ & _ & _ & Hrttl & Hattl & _ & ->).
  exists rttl, attl. cbn [RefreshTokenTTL AccessTokenTTL].
  split; [exact Hrttl|]. split; [exact Hattl|].
  split; [reflexivity|]. split; [reflexivity|].
  split; [apply seconds_exact|]. split; [apply seconds_exact|]. split.
  - intros Habs. unfold lookupInt in Hrttl. rewrite Habs in Hrttl.
    injection Hrttl as <-. reflexivity.
  - intros Habs. unfold lookupInt in Hattl. rewrite Habs in Hattl.
    injection Hattl as <-. reflexivity.
Qed.

(** X14. [ReadEnv] panics with the failure of the first resolver that fails,
    in the order of the list: a missing APP_DOMAINS whatever else is set; a
    missing AUTHN_URL once APP_DOMAINS is set; a missing SECRET_KEY_BASE once
    both are set (even when the AUTHN_URL does not parse); and, once the three
    are set, the failure of BCRYPT_COST: not an integer, or lower than 10. *)
Theorem ReadEnv_reports_first_failure (env : Env) :
  (LookupEnv env "APP_DOMAINS" = None ->
   ReadEnv url_Parse rsa_GenerateKey env = Err (MissingEnv "APP_DOMAINS")) /\
  (LookupEnv env "APP_DOMAINS" <> None ->
   (LookupEnv env "AUTHN_URL" = None ->
    ReadEnv url_Parse rsa_GenerateKey env = Err (MissingEnv "AUTHN_URL")) /\
   (LookupEnv env "AUTHN_URL" <> None ->
    (LookupEnv env "SECRET_KEY_BASE" = None ->
     ReadEnv url_Parse rsa_GenerateKey env = Err (MissingEnv "SECRET_KEY_BASE")) /\
    (LookupEnv env "SECRET_KEY_BASE" <> None ->
     (forall e, snd (lookupInt env "BCRYPT_COST" 11) = Some e ->
                ReadEnv url_Parse rsa_GenerateKey env = Err e) /\
     (snd (lookupInt env "BCRYPT_COST" 11) = None ->
      fst (lookupInt env "BCRYPT_COST" 11) < 10 ->
      ReadEnv url_Parse rsa_GenerateKey env =
        Err (BcryptCostTooLow (fst (lookupInt env "BCRYPT_COST" 11))))))).
Proof.
  unfold ReadEnv, configure, configurers, configure_from,
    configure_APP_DOMAINS, configure_AUTHN_URL, configure_SECRET_KEY_BASE,
    configure_BCRYPT_COST, requireEnv.
  split; [intros ->; reflexivity|]. intros Happ.
  destruct (LookupEnv env "APP_DOMAINS") as [app|]; [clear Happ|contradiction].
  cbv beta iota zeta.
  split; [intros ->; reflexivity|]. intros Hauthn.
  destruct (LookupEnv env "AUTHN_URL") as [authn|]; [clear Hauthn|contradiction].
  cbv beta iota zeta.
  split.
  - intros ->. destruct (url_Parse authn); reflexivity.
  - intros Hsecret.
    destruct (LookupEnv env "SECRET_KEY_BASE") as [secret|];
      [clear Hsecret|contradiction].
    destruct (lookupInt env "BCRYPT_COST" 11) as [cost [e|]]; simpl fst; simpl snd.
    + split; [|discriminate]. intros e' [= <-].
      destruct (url_Parse authn); reflexivity.
    + split; [discriminate|]. intros _ Hlow. apply Z.ltb_lt in Hlow.
      destruct (url_Parse authn); cbv beta iota zeta; rewrite Hlow; reflexivity.
Qed.

End LoadedConfiguration.

(** * Loaded configurations, on given environments *)

Section LoadedConfigurationRuns.
Import config.

#[local] Opaque config.derive.

Lemma env_with_loads (authn : string) :
  exists c : Config, ReadEnv url.Parse generated_key (env_with authn) = Ok c.
Proof.
  pose proof (env_with_lookups authn)
    as (H1 & H2 & H3 & H4 & H5 & H6 & H7 & H8 & H9 & H10 & H11).
  destruct (ReadEnv_on_required url.Parse generated_key _ _ _ _ _ _ _ tt
              H1 H2 H3 H4 H5 H6 H7 H8 H9 H10 H11 eq_refl) as (c & E & _).
  now exists c.
Qed.

Lemma ReadEnv_returns_iff_witness :
  exists c : Config, ReadEnv url.Parse generated_key (env_with ":") = Ok c.
Proof.
  apply (proj2 (ReadEnv_returns_iff url.Parse generated_key (env_with ":"))).
  repeat (split; [discriminate || reflexivity || (simpl; lia)|]).
  now exists tt.
Defined.

Lemma loaded_security_settings_witness :
  exists c : Config,
    ReadEnv url.Parse generated_key (env_with "https://app.example.com/authn") = Ok c /\
    10 <= BcryptCost c /\ UsernameMinLength c = 3 /\
    length (SessionSigningKey c) = 256%nat.
Proof.
  destruct (env_with_loads "https://app.example.com/authn") as [c E].
  exists c. split; [exact E|].
  destruct (loaded_security_settings url.Parse generated_key _ c E)
    as (H1 & H2 & _ & _ & H5).
  auto.
Defined.

Lemma loaded_URLs_witness :
  exists c : Config,
    ReadEnv url.Parse generated_key (env_with "http://app.example.com/authn") = Ok c /\
    MountedPath c = "/authn"%string /\ ForceSSL c = false /\
    exists u, RedisURL c = Some u /\ url.Host u = "127.0.0.1:6379"%string.
Proof.
  destruct (env_with_loads "http://app.example.com/authn") as [c E].
  exists c. split; [exact E|].
  destruct (loaded_URLs url.Parse generated_key _ c E)
    as (authn & dburl & redis & Ha & Hd & Hr & _ & Hpath & Hssl & _ & Hredis).
  injection Ha as <-. injection Hr as <-.
  split; [exact Hpath|]. split; [exact Hssl|].
  eexists. split; [exact Hredis|reflexivity].
Defined.

Lemma loaded_domain_lists_witness :
  exists c : Config,
    ReadEnv url.Parse generated_key (env_with "https://app.example.com/authn") = Ok c /\
    ApplicationDomains c = [","%string] /\ UsernameDomains c = [].
Proof.
  destruct (env_with_loads "https://app.example.com/authn") as [c E].
  exists c. split; [exact E|].
  destruct (loaded_domain_lists url.Parse generated_key _ c E)
    as ((app & Happ & Hdomains) & Husers).
  injection Happ as <-. split; [exact Hdomains|exact Husers].
Defined.

Lemma loaded_TTLs_witness :
  exists c : Config,
    ReadEnv url.Parse generated_key (env_with "https://app.example.com/authn") = Ok c /\
    RefreshTokenTTL c = 31557600000000000 /\ AccessTokenTTL c = 3600000000000.
Proof.
  destruct (env_with_loads "https://app.example.com/authn") as [c E].
  exists c. split; [exact E|].
  destruct (loaded_TTLs url.Parse generated_key _ c E)
    as (rttl & attl & _ & _ & _ & _ & _ & _ & Hr & Ha).
  split; [now apply Hr|now apply Ha].
Defined.

Lemma ReadEnv_reports_first_failure_witness :
  ReadEnv url.Parse generated_key (env_with_cost "9") = Err (BcryptCostTooLow 9) /\
  ReadEnv url.Parse generated_key [("BCRYPT_COST", "9")] =
    Err (MissingEnv "APP_DOMAINS").
Proof.
  split.
  - destruct (ReadEnv_reports_first_failure url.Parse generated_key
                (env_with_cost "9")) as [_ H].
    destruct H as [_ H]; [discriminate|].
    destruct H as [_ H]; [discriminate|].
    destruct H as [_ H]; [discriminate|].
    apply H; [reflexivity|simpl; lia].
  - exact (proj1 (ReadEnv_reports_first_failure url.Parse generated_key
                    [("BCRYPT_COST", "9")]) eq_refl).
Defined.

End LoadedConfigurationRuns.
